(** * Interface configuration of smc-python ([smc/core/interfaces.py])

    A shallow embedding of the interface subsystem: the JSON fragments
    the module reads and writes, the [InterfaceModifier] that holds every
    top-level interface of an engine, the [InterfaceBuilder] draft, and
    the mutation operations of [Interface] and [PhysicalInterface].

    Conventions of the embedding.
    - A Python scalar is a [PyVal]; [VNone] stands both for [None] and
      for a key that is absent from a dict read with [dict.get].
    - A sub-interface fragment [{typeof: data}] is a [SubInterface]: the
      discriminator and the attribute dict (a [gmap] from key to value).
    - The body of a top-level interface, of a VLAN fragment and of an
      [InterfaceBuilder] (whose attributes are the keys of that body) is
      an [IData].  The key [interfaces] is always present; the key
      [vlanInterfaces] is optional (VLAN fragments do not have it).
    - Python objects that wrap a shared dict (sub-interface wrappers,
      [PhysicalVlanInterface] views) are positions in the owning
      structure; in-place mutation is a functional update there.
    - Requests to the management server are recorded in a log. *)

From stdpp Require Import gmap strings list pretty.
From Stdlib Require Import ZArith String Ascii.

Open Scope string_scope.
Open Scope list_scope.

(** ** Python values and strings *)

Inductive PyVal : Type :=
| VNone
| VBool (b : bool)
| VInt (n : Z)
| VStr (s : string).

#[global] Instance PyVal_eq_dec : EqDecision PyVal.
Proof. solve_decision. Defined.

(** [bool(v)] *)
Definition truthy (v : PyVal) : bool :=
  match v with
  | VNone => false
  | VBool b => b
  | VInt n => negb (n =? 0)%Z
  | VStr s => negb (String.eqb s "")
  end.

(** [str(v)] *)
Definition py_str (v : PyVal) : string :=
  match v with
  | VNone => "None"
  | VBool true => "True"
  | VBool false => "False"
  | VInt n => pretty n
  | VStr s => s
  end.

(** [a == b] on scalars: a bool compares as the integer 0 or 1. *)
Definition py_num (v : PyVal) : option Z :=
  match v with
  | VBool true => Some 1%Z
  | VBool false => Some 0%Z
  | VInt n => Some n
  | _ => None
  end.

Definition py_eq (a b : PyVal) : bool :=
  match py_num a, py_num b with
  | Some x, Some y => (x =? y)%Z
  | None, None => bool_decide (a = b)
  | _, _ => false
  end.

(** [v == s] for a string [s]. *)
Definition py_eq_str (v : PyVal) (s : string) : bool :=
  match v with
  | VStr t => String.eqb t s
  | _ => false
  end.

(** [s.split(sep)] for a one-character separator. *)
Fixpoint split (sep : ascii) (s : string) : list string :=
  match s with
  | EmptyString => [""]
  | String c r =>
      if Ascii.eqb c sep then "" :: split sep r
      else match split sep r with
           | [] => [String c ""]
           | w :: ws => String c w :: ws
           end
  end.

(** [sub in s] for strings. *)
Fixpoint contains (sub s : string) : bool :=
  String.prefix sub s ||
  match s with
  | EmptyString => false
  | String _ r => contains sub r
  end.

(** [l[0]] and [l[-1]] on the result of a split (never empty). *)
Definition first_part (l : list string) : string := List.hd "" l.
Definition last_part (l : list string) : string := List.last l "".

(** ['{}.{}'.format(a, b)] *)
Definition dotted (a b : PyVal) : string := py_str a +:+ "." +:+ py_str b.

(** ** Errors *)

Inductive Error : Type :=
| InterfaceNotFound
| ModificationAborted
| AttributeError
| ValueError
| StopIteration.

Inductive Result (A : Type) : Type :=
| Ok (a : A)
| Raise (e : Error).
Arguments Ok {A} a.
Arguments Raise {A} e.

#[global] Instance Result_ret : MRet Result := fun A a => Ok a.

#[global] Instance Result_bind : MBind Result := fun A B k r =>
  match r with
  | Ok a => k a
  | Raise e => Raise e
  end.

(** ** Sub-interface fragments *)

Inductive SubType : Type :=
| SingleNode
| Node
| ClusterVirtual
| Inline
| InlineIPS
| InlineL2FW
| Capture.

#[global] Instance SubType_eq_dec : EqDecision SubType.
Proof. solve_decision. Defined.


Record SubInterface : Type := mkSub {
  typeof : SubType;
  sub_data : gmap string PyVal }.

(** Modelled from the spec: [isinstance(s, InlineInterface)]; the two
    layer 3 inline variants derive from [InlineInterface]. *)
Definition isinstance_inline (s : SubInterface) : bool :=
  match typeof s with
  | Inline | InlineIPS | InlineL2FW => true
  | _ => false
  end.

Definition isinstance_cvi (s : SubInterface) : bool :=
  bool_decide (typeof s = ClusterVirtual).

Definition isinstance_node (s : SubInterface) : bool :=
  bool_decide (typeof s = Node).

(** Modelled from the spec: attribute access on a sub-interface wrapper
    reads the key from its dict and yields [None] when it is absent
    (the sources test [getattr(sub_interface, attribute) is not None]). *)
Definition sub_getattr (s : SubInterface) (k : string) : PyVal :=
  default VNone (sub_data s !! k).

(** [sub_interface[k] = v] *)
Definition sub_setitem (k : string) (v : PyVal) (s : SubInterface) : SubInterface :=
  mkSub (typeof s) (<[k := v]> (sub_data s)).

(** Modelled from the spec: [sub_interface.update] stages each
    keyword argument into the fragment's dict. *)
Definition sub_update (kw : list (string * PyVal)) (s : SubInterface) : SubInterface :=
  fold_left (fun acc p => sub_setitem p.1 p.2 acc) kw s.

(** ** Interface bodies *)

#[warnings="-register-all"]
Inductive IData : Type := mkIData {
  interface_id : PyVal;
  interfaces : list SubInterface;
  vlanInterfaces : option (list IData);
  zone_ref : PyVal;
  comment : PyVal;
  macaddress : PyVal;
  virtual_mapping : PyVal;
  virtual_resource_name : PyVal }.

Definition set_interface_id (v : PyVal) (d : IData) : IData :=
  mkIData v (interfaces d) (vlanInterfaces d) (zone_ref d) (comment d)
          (macaddress d) (virtual_mapping d) (virtual_resource_name d).

Definition set_interfaces (l : list SubInterface) (d : IData) : IData :=
  mkIData (interface_id d) l (vlanInterfaces d) (zone_ref d) (comment d)
          (macaddress d) (virtual_mapping d) (virtual_resource_name d).

Definition set_vlanInterfaces (l : option (list IData)) (d : IData) : IData :=
  mkIData (interface_id d) (interfaces d) l (zone_ref d) (comment d)
          (macaddress d) (virtual_mapping d) (virtual_resource_name d).

Definition set_zone_ref_raw (v : PyVal) (d : IData) : IData :=
  mkIData (interface_id d) (interfaces d) (vlanInterfaces d) v (comment d)
          (macaddress d) (virtual_mapping d) (virtual_resource_name d).

Definition set_comment_raw (v : PyVal) (d : IData) : IData :=
  mkIData (interface_id d) (interfaces d) (vlanInterfaces d) (zone_ref d) v
          (macaddress d) (virtual_mapping d) (virtual_resource_name d).

Definition set_macaddress (v : PyVal) (d : IData) : IData :=
  mkIData (interface_id d) (interfaces d) (vlanInterfaces d) (zone_ref d)
          (comment d) v (virtual_mapping d) (virtual_resource_name d).

(** [self.data.get('vlanInterfaces', [])] *)
Definition vlans_of (d : IData) : list IData := default [] (vlanInterfaces d).

(** [Interface.has_vlan] and [Interface.has_interfaces] *)
Definition has_vlan (d : IData) : bool :=
  match vlans_of d with [] => false | _ => true end.

Definition has_interfaces (d : IData) : bool :=
  match interfaces d with [] => false | _ => true end.

(** [Interface.comment] setter *)
Definition set_comment (v : PyVal) (d : IData) : IData :=
  set_comment_raw (match v with VNone => VStr "" | _ => v end) d.

(** ** VLAN views *)

(** [PhysicalVlanInterface.vlan_id].  The property splits strings; on a
    value that is not a string Python raises [AttributeError], here
    [None]. *)
Definition vlan_id (v : IData) : option string :=
  match interface_id v with
  | VStr vid =>
      let vlans := [last_part (split "." vid)] in
      match interfaces v with
      | s :: _ =>
          if bool_decide (typeof s = Inline) then
            match sub_getattr s "nicid" with
            | VStr nicid =>
                let second_vlan :=
                  last_part (split "." (last_part (split "-" nicid))) in
                if bool_decide (second_vlan ∈ vlans)
                then Some (String.concat "-" vlans)
                else Some (String.concat "-" (vlans ++ [second_vlan]))
            | _ => None
            end
          else Some (String.concat "-" vlans)
      | [] => Some (String.concat "-" vlans)
      end
  | _ => None
  end.

(** The loop of [VlanCollection.get_vlan]: the first VLAN whose
    [vlan_id] equals [value], with its position.
    [getattr(vlan, key, None)] turns an [AttributeError] of the property
    into [None], which never equals the string [value]. *)
Fixpoint find_vlan (vl : list IData) (value : string) (j : nat)
  : option (nat * IData) :=
  match vl with
  | [] => None
  | v :: rest =>
      if bool_decide (vlan_id v = Some value) then Some (j, v)
      else find_vlan rest value (S j)
  end.

(** [VlanCollection.get_vlan(vlan_id)] on the interface [d] *)
Definition get_vlan (d : IData) (vid : PyVal) : Result (nat * IData) :=
  match find_vlan (vlans_of d) (py_str vid) 0 with
  | Some p => Ok p
  | None => Raise InterfaceNotFound
  end.

(** ** InterfaceModifier *)

(** The interfaces of one engine, as [InterfaceModifier.byEngine] loads
    them from [engine.data['physicalInterfaces']], with [engine.type]. *)
Record InterfaceModifier : Type := mkModifier {
  engine_type : string;
  _data : list IData }.

(** An interface object handed out by the modifier: a top-level
    interface, or the [PhysicalVlanInterface] view of VLAN [j] of
    top-level interface [i]. *)
Inductive ItfRef : Type :=
| TopLevel (i : nat)
| VlanView (i j : nat).

Record ItfObj : Type := mkObj {
  obj_ref : ItfRef;
  obj_data : IData }.

(** The inner loop of [InterfaceModifier.get] over the sub-interfaces of
    one top-level interface: is [id] the nicid, or one half of the
    nicid, of an inline sub-interface? *)
Fixpoint inline_scan (id : string) (l : list SubInterface) : Result bool :=
  match l with
  | [] => Ok false
  | s :: rest =>
      if isinstance_inline s then
        match sub_getattr s "nicid" with
        | VStr nicid =>
            if String.eqb id nicid || bool_decide (id ∈ split "-" nicid)
            then Ok true
            else inline_scan id rest
        | _ => Raise AttributeError
        end
      else inline_scan id rest
  end.

Fixpoint get_loop (l : list IData) (i : nat) (id : string) : Result ItfObj :=
  match l with
  | [] => Raise InterfaceNotFound
  | intf :: rest =>
      if py_eq_str (interface_id intf) id then Ok (mkObj (TopLevel i) intf)
      else if contains "." id then
        let vlan := split "." id in
        if py_eq_str (interface_id intf) (first_part vlan) && has_vlan intf
        then
          '(j, v) ← get_vlan intf (VStr (last_part vlan));
          Ok (mkObj (VlanView i j) v)
        else get_loop rest (S i) id
      else if has_interfaces intf then
        b ← inline_scan id (interfaces intf);
        if b : bool then Ok (mkObj (TopLevel i) intf)
        else get_loop rest (S i) id
      else get_loop rest (S i) id
  end.

(** [InterfaceModifier.get(interface_id)] *)
Definition get (m : InterfaceModifier) (iid : PyVal) : Result ItfObj :=
  get_loop (_data m) 0 (py_str iid).

(** Sub-interfaces that [all_interfaces] yields through the VLAN
    collection first and the interface's own collection second. *)
Definition nested_subs (d : IData) : list SubInterface :=
  flat_map interfaces (vlans_of d) ++ interfaces d.

(** Modelled from the spec: [AllInterfaces.get(address=a)] asks each
    collection for the first sub-interface whose attribute equals the
    value; [SubInterfaceCollection.get] is not among the sources and is
    taken to search like [VlanCollection.get]. *)
Definition all_interfaces_get (d : IData) (key : string) (value : PyVal)
  : option SubInterface :=
  List.find (fun s => py_eq (sub_getattr s key) value) (nested_subs d).

(** In-place update of every sub-interface that
    [Interface.sub_interfaces] returns for the interface [d]: those
    nested in its VLANs and its own. *)
Definition map_interfaces (f : SubInterface → SubInterface) (v : IData) : IData :=
  set_interfaces (map f (interfaces v)) v.

Definition map_subs (f : SubInterface → SubInterface) (d : IData) : IData :=
  set_interfaces (map f (interfaces d))
    (set_vlanInterfaces (option_map (map (map_interfaces f)) (vlanInterfaces d)) d).

(** In-place update of the sub-interfaces directly in the collection of
    one interface object. *)
Definition map_own_subs (f : SubInterface → SubInterface) (r : ItfRef)
    (l : list IData) : list IData :=
  match r with
  | TopLevel i => alter (map_interfaces f) i l
  | VlanView i j =>
      alter (fun d =>
               set_vlanInterfaces
                 (option_map (alter (map_interfaces f) j) (vlanInterfaces d)) d)
            i l
  end.

(** [InterfaceModifier.find_mgmt_interface(mgmt)] *)
Definition carries (mgmt : string) (s : SubInterface) : bool :=
  truthy (sub_getattr s mgmt).

Definition find_mgmt_in (mgmt : string) (d : IData) : option PyVal :=
  match List.find (fun v => existsb (carries mgmt) (interfaces v)) (vlans_of d) with
  | Some v => Some (interface_id v)
  | None =>
      if existsb (carries mgmt) (interfaces d) then Some (interface_id d)
      else None
  end.

Fixpoint find_mgmt_loop (mgmt : string) (l : list IData) : PyVal :=
  match l with
  | [] => VNone
  | d :: rest =>
      match find_mgmt_in mgmt d with
      | Some v => v
      | None => find_mgmt_loop mgmt rest
      end
  end.

Definition find_mgmt_interface (m : InterfaceModifier) (mgmt : string) : PyVal :=
  find_mgmt_loop mgmt (_data m).

(** The body of the double loop of [InterfaceModifier.set_unset] for one
    sub-interface. *)
Definition set_unset_sub (id_str attribute : string)
    (address target_network : PyVal) (s : SubInterface) : SubInterface :=
  if isinstance_inline s then s
  else if bool_decide (sub_getattr s attribute = VNone) then s
  else if py_eq_str (sub_getattr s "nicid") id_str then
    if bool_decide (address = VNone) then sub_setitem attribute (VBool true) s
    else if py_eq (sub_getattr s "network_value") target_network
         then sub_setitem attribute (VBool true) s
         else sub_setitem attribute (VBool false) s
  else sub_setitem attribute (VBool false) s.

(** [InterfaceModifier.set_unset(interface_id, attribute, address)];
    [address = VNone] is the default of the parameter. *)
Definition set_unset (m : InterfaceModifier) (iid : PyVal)
    (attribute : string) (address : PyVal) : Result InterfaceModifier :=
  interface ← (match iid with
               | VNone => Ok None
               | _ => o ← get m iid; Ok (Some o)
               end);
  target_network ←
    (match address with
     | VNone => Ok VNone
     | _ =>
         match interface with
         | None => Raise AttributeError
         | Some o =>
             let target_network :=
               match all_interfaces_get (obj_data o) "address" address with
               | Some s => sub_getattr s "network_value"
               | None => VNone
               end in
             if truthy target_network then Ok target_network
             else Raise InterfaceNotFound
         end
     end);
  Ok (mkModifier (engine_type m)
        (map (map_subs (set_unset_sub (py_str iid) attribute address
                          target_network)) (_data m))).

(** The two assignment loops of [InterfaceModifier.set_auth_request]. *)
Definition unset_auth_request (s : SubInterface) : SubInterface :=
  if truthy (sub_getattr s "auth_request")
  then sub_setitem "auth_request" (VBool false) s
  else s.

Definition bind_auth_request (address : PyVal) (s : SubInterface) : SubInterface :=
  if truthy address then
    if py_eq (sub_getattr s "address") address
    then sub_setitem "auth_request" (VBool true) s
    else s
  else sub_setitem "auth_request" (VBool true) s.

Definition set_auth_request_sub (has_cvi : bool) (address : PyVal)
    (s : SubInterface) : SubInterface :=
  if has_cvi then
    if isinstance_cvi s then bind_auth_request address s else s
  else
    if bool_decide (sub_getattr s "auth_request" = VNone) then s
    else bind_auth_request address s.

(** [InterfaceModifier.set_auth_request(interface_id, address)].  The
    VLAN views that [all_interfaces] also yields are neither
    [ClusterVirtualInterface] instances nor carry [auth_request], so the
    loops only act on the sub-interfaces of the object's own
    collection. *)
Definition set_auth_request (m : InterfaceModifier) (iid address : PyVal)
  : Result InterfaceModifier :=
  if existsb (fun engine_type' => contains engine_type' (engine_type m))
       ["master"; "layer2"; "ips"]
  then Ok m
  else
    interface ← get m iid;
    let has_cvi := existsb isinstance_cvi (interfaces (obj_data interface)) in
    _ ← (if contains "cluster" (engine_type m) && negb has_cvi
         then Raise InterfaceNotFound else Ok tt);
    current_interface ← get m (find_mgmt_interface m "auth_request");
    let unset := map_own_subs unset_auth_request (obj_ref current_interface) (_data m) in
    Ok (mkModifier (engine_type m)
          (map_own_subs (set_auth_request_sub has_cvi address)
             (obj_ref interface) unset)).

(** [InterfaceOptions.set_backup_mgt(interface_id)] up to the dispatch:
    the staged modifier. *)
Definition set_backup_mgt (m : InterfaceModifier) (iid : PyVal)
  : Result InterfaceModifier :=
  set_unset m iid "backup_mgt" VNone.

(** ** Creation of sub-interface fragments *)

(** Modelled from the spec: [NodeInterface.create] and
    [SingleNodeInterface.create] of [smc/core/sub_interfaces.py], which
    is not among the sources.  A node-level fragment carries the address,
    the network, the nic id (the interface id as a string), the node id
    and the six role flags, all off; keyword arguments are staged last
    and override. *)
Definition role_flags : list string :=
  ["auth_request"; "backup_heartbeat"; "backup_mgt"; "outgoing";
   "primary_heartbeat"; "primary_mgt"].

Definition create_node (cls : SubType) (iid address network_value nodeid : PyVal)
    (kw : list (string * PyVal)) : SubInterface :=
  sub_update
    ([("address", address); ("network_value", network_value);
      ("nicid", VStr (py_str iid)); ("nodeid", nodeid)]
       ++ map (fun f => (f, VBool false)) role_flags ++ kw)
    (mkSub cls ∅).

(** Modelled from the spec: [ClusterVirtualInterface.create].  A cluster
    virtual fragment carries the shared address, the network, the nic id
    and the [auth_request] flag, off. *)
Definition create_cvi (iid address network_value : PyVal)
    (kw : list (string * PyVal)) : SubInterface :=
  sub_update
    ([("address", address); ("network_value", network_value);
      ("nicid", VStr (py_str iid)); ("auth_request", VBool false)] ++ kw)
    (mkSub ClusterVirtual ∅).

(** Modelled from the spec: [SubInterface.change_interface_id], the
    generic relabelling of a sub-interface nested in a VLAN: the nic id
    [parent.vlan] keeps its VLAN part under the new parent id; a nic id
    that is not of that form is rejected. *)
Definition sub_change_interface_id (newid : string) (s : SubInterface)
  : Result SubInterface :=
  match sub_getattr s "nicid" with
  | VStr nicid =>
      match split "." nicid with
      | [_; second] =>
          Ok (sub_update [("nicid", VStr (newid +:+ "." +:+ second))] s)
      | _ => Raise ValueError
      end
  | _ => Raise AttributeError
  end.

(** ** Requests and the engine *)

Inductive Request : Type :=
| ReqUpdate (json : IData)
| ReqCreate (json : IData)
| ReqPurgeInvalidRoutes (nicid : PyVal)
| ReqDeleteRoute (name : string).

(** What the module reads of the engine: its type, the interface bodies
    of [engine.data['physicalInterfaces']] and the names of its routing
    nodes. *)
Record Engine : Type := mkEngine {
  etype : string;
  physicalInterfaces : list IData;
  routing : list string }.

(** [InterfaceModifier.byEngine(engine)] *)
Definition byEngine (e : Engine) : InterfaceModifier :=
  mkModifier (etype e) (physicalInterfaces e).

(** The result of a method of an interface object: what it returned or
    raised, the body the object shows afterwards (staged changes survive
    an exception; after a commit the cached body is dropped and the next
    read fetches the committed one), and the request log. *)
Record Outcome (A : Type) : Type := mkOutcome {
  result : Result A;
  self_data : IData;
  sent : list Request }.
Arguments mkOutcome {A} result self_data sent.
Arguments result {A} o.
Arguments self_data {A} o.
Arguments sent {A} o.

(** A [for] loop that mutates the elements of a list in place and stops
    at the first exception, leaving the remaining elements untouched. *)
Fixpoint for_each {A : Type} (f : A → Result unit * A) (l : list A)
  : Result unit * list A :=
  match l with
  | [] => (Ok tt, [])
  | x :: rest =>
      let '(r, x') := f x in
      match r with
      | Ok _ => let '(r', rest') := for_each f rest in (r', x' :: rest')
      | Raise e => (Raise e, x' :: rest)
      end
  end.

Definition lift_sub (f : SubInterface → Result SubInterface) (s : SubInterface)
  : Result unit * SubInterface :=
  match f s with
  | Ok s' => (Ok tt, s')
  | Raise e => (Raise e, s)
  end.

Section Operations.

(** [zone_helper] of [smc/elements/helpers.py] resolves a zone name,
    href or element to an href; [InlineInterface.change_interface_id]
    belongs to [smc/core/sub_interfaces.py].  Neither is among the
    sources and the spec does not describe them: both are parameters. *)
Context (zone_helper : PyVal → PyVal).
Context (inline_change_interface_id : PyVal → SubInterface → Result SubInterface).

(** ** InterfaceBuilder *)

(** [InterfaceBuilder()] for a physical interface, and
    [InterfaceBuilder(TunnelInterface)]. *)
Definition InterfaceBuilder_new (tunnel : bool) : IData :=
  mkIData VNone [] (if tunnel then None else Some []) VNone VNone VNone VNone VNone.

(** The [zone] setter of the builder. *)
Definition builder_set_zone (value : PyVal) (b : IData) : IData :=
  set_zone_ref_raw (zone_helper value) b.

(** [PhysicalVlanInterface.create(interface_id, vlan_id, virtual_mapping,
    virtual_resource_name, zone_ref, comment=..., interface=...)] *)
Definition PhysicalVlanInterface_create (iid vid vmap vres zref cmt : PyVal)
    (interface : option SubInterface) : IData :=
  mkIData (VStr (dotted iid vid))
          (match interface with Some s => [s] | None => [] end)
          None (zone_helper zref) cmt VNone vmap vres.

(** [self.vlanInterfaces.append(vlan)] *)
Definition append_vlan (vlan : IData) (b : IData) : Result IData :=
  match vlanInterfaces b with
  | Some l => Ok (set_vlanInterfaces (Some (l ++ [vlan])) b)
  | None => Raise AttributeError
  end.

Definition add_vlan_only (b : IData) (vid vmap vres zref cmt : PyVal)
  : Result IData :=
  append_vlan (PhysicalVlanInterface_create (interface_id b) vid vmap vres zref cmt None) b.


Definition add_sni_only (b : IData) (address network_value : PyVal)
    (is_mgmt : bool) (kw : list (string * PyVal)) : IData :=
  let sni := create_node SingleNode (interface_id b) address network_value
               (VInt 1) kw in
  let sni := if is_mgmt
             then sub_update [("auth_request", VBool true);
                              ("outgoing", VBool true);
                              ("primary_mgt", VBool true)] sni
             else sni in
  set_interfaces (interfaces b ++ [sni]) b.

Definition add_ndi_only (b : IData) (address network_value nodeid : PyVal)
    (is_mgmt : bool) (kw : list (string * PyVal)) : IData :=
  let ndi := create_node Node (interface_id b) address network_value nodeid kw in
  let ndi := if is_mgmt
             then sub_update [("primary_mgt", VBool true);
                              ("outgoing", VBool true);
                              ("primary_heartbeat", VBool true)] ndi
             else ndi in
  set_interfaces (interfaces b ++ [ndi]) b.

(** The search loop of [add_ndi_to_vlan]: append the fragment to the
    first VLAN whose composite id is [vlan_str]. *)
Fixpoint add_to_vlan (vlan_str : string) (intf : SubInterface) (vl : list IData)
  : option (list IData) :=
  match vl with
  | [] => None
  | vlan :: rest =>
      if py_eq_str (interface_id vlan) vlan_str
      then Some (set_interfaces (interfaces vlan ++ [intf]) vlan :: rest)
      else cons vlan <$> add_to_vlan vlan_str intf rest
  end.

Definition add_ndi_to_vlan (b : IData) (address network_value vid nodeid
    zref cmt : PyVal) (cls : SubType) (kw : list (string * PyVal))
  : Result IData :=
  let vlan_str := dotted (interface_id b) vid in
  match vlanInterfaces b with
  | None => Raise AttributeError
  | Some vl =>
      let intf := create_node cls (interface_id b) address network_value nodeid
                    (("nicid", VStr vlan_str) :: kw) in
      match add_to_vlan vlan_str intf vl with
      | Some vl' => Ok (set_vlanInterfaces (Some vl') b)
      | None =>
          append_vlan
            (PhysicalVlanInterface_create (interface_id b) vid VNone VNone
               zref cmt (Some intf)) b
      end
  end.

Definition add_sni_to_vlan (b : IData) (address network_value vid nodeid
    zref cmt : PyVal) (kw : list (string * PyVal)) : Result IData :=
  add_ndi_to_vlan b address network_value vid nodeid zref cmt SingleNode kw.

Definition add_cvi_to_vlan (b : IData) (address network_value vid zref cmt : PyVal)
    (kw : list (string * PyVal)) : Result IData :=
  let vlan_str := dotted (interface_id b) vid in
  let cvi := create_cvi (interface_id b) address network_value
               (("nicid", VStr vlan_str) :: kw) in
  append_vlan
    (PhysicalVlanInterface_create (interface_id b) vid VNone VNone zref cmt
       (Some cvi)) b.

(** [InterfaceBuilder.remove_vlan(vlan_id)] *)
Definition builder_remove_vlan (b : IData) (vid : PyVal) : Result IData :=
  let vlan_str := dotted (interface_id b) vid in
  match vlanInterfaces b with
  | None => Raise AttributeError
  | Some vl =>
      Ok (set_vlanInterfaces
            (Some (List.filter
                     (fun vlan => negb (py_eq_str (interface_id vlan) vlan_str))
                     vl)) b)
  end.

(** [InterfaceBuilder.getBuilder(instance, interface_id)]: only
    [InterfaceNotFound] is caught. *)
Definition getBuilder (tunnel : bool) (e : Engine) (iid : PyVal)
  : Result (IData * option ItfObj) :=
  match get (byEngine e) iid with
  | Ok interface => Ok (obj_data interface, Some interface)
  | Raise InterfaceNotFound =>
      Ok (set_interface_id iid (InterfaceBuilder_new tunnel), None)
  | Raise err => Raise err
  end.

(** [dispatch(instance, builder, interface)] *)
Definition dispatch (builder : IData) (interface : option ItfObj)
    (log : list Request) : list Request :=
  match interface with
  | Some _ => log ++ [ReqUpdate builder]
  | None => log ++ [ReqCreate builder]
  end.

(** [PhysicalInterface.add_layer3_vlan_interface]: the body that is
    dispatched and the log. *)
Definition add_layer3_vlan_interface (e : Engine) (iid vid address
    network_value vmap vres zref cmt : PyVal) (log : list Request)
  : Result (IData * list Request) :=
  '(builder, interface) ← getBuilder false e iid;
  builder' ←
    (match address with
     | VNone => add_vlan_only builder vid vmap vres zref cmt
     | _ =>
         if String.eqb (etype e) "single_fw"
         then add_sni_to_vlan builder address network_value vid (VInt 1) zref cmt []
         else add_ndi_to_vlan builder address network_value vid (VInt 1) zref cmt Node []
     end);
  Ok (builder', dispatch builder' interface log).

(** ** Mutation operations of [Interface] *)

(** The [zone_ref] setter of [Interface]. *)
Definition zone_setter (value : PyVal) (d : IData) : IData :=
  match value with
  | VNone => set_zone_ref_raw VNone d
  | _ => set_zone_ref_raw (zone_helper value) d
  end.

(** A change staged on the VLAN view [itf] (when a VLAN id was given) or
    on the interface itself. *)
Definition on_target (target : option (nat * IData)) (f : IData → IData)
    (d : IData) : IData :=
  match target with
  | Some (j, _) => set_vlanInterfaces (option_map (alter f j) (vlanInterfaces d)) d
  | None => f d
  end.

(** The common prologue of the two [change_*_interface] methods after
    the VLAN guard: the VLAN view when [vlan_id] is given. *)
Definition resolve_target (self : IData) (vid : PyVal)
  : Result (option (nat * IData)) :=
  if truthy vid then p ← get_vlan self vid; Ok (Some p) else Ok None.

(** The zone step shared by both methods. *)
Definition stage_zone (target : option (nat * IData)) (zref : PyVal)
    (st : IData * bool) : IData * bool :=
  if truthy zref then
    let zone := zone_helper zref in
    if negb (py_eq (zone_ref st.1) zone)
    then (on_target target (zone_setter zone) st.1, true)
    else st
  else st.

(** The address loop of [change_single_interface]. *)
Fixpoint change_single_loop (address network_value : PyVal)
    (l : list SubInterface) (original_network : PyVal) (change_made : bool)
  : list SubInterface * PyVal * bool :=
  match l with
  | [] => ([], original_network, change_made)
  | interface :: rest =>
      if negb (py_eq (sub_getattr interface "address") address) then
        let '(rest', o, c) :=
          change_single_loop address network_value rest
            (sub_getattr interface "network_value") true in
        (sub_update [("address", address); ("network_value", network_value)]
           interface :: rest', o, c)
      else
        let '(rest', o, c) :=
          change_single_loop address network_value rest original_network
            change_made in
        (interface :: rest', o, c)
  end.

(** [Interface.change_single_interface(address, network_value, zone_ref,
    vlan_id)] *)
Definition change_single_interface (self : IData) (address network_value
    zref vid : PyVal) (log : list Request) : Outcome bool :=
  if has_vlan self && negb (truthy vid)
  then mkOutcome (Raise ModificationAborted) self log
  else
    match resolve_target self vid with
    | Raise err => mkOutcome (Raise err) self log
    | Ok target =>
        let itf := match target with Some (_, v) => v | None => self end in
        let nicid := interface_id itf in
        let '(self1, change_made) := stage_zone target zref (self, false) in
        let '(subs, original_network, change_made) :=
          change_single_loop address network_value (interfaces itf) VNone
            change_made in
        let self2 := on_target target (set_interfaces subs) self1 in
        if change_made then
          let log1 := log ++ [ReqUpdate self2] in
          mkOutcome (Ok true) self2
            (if truthy original_network
                && negb (py_eq original_network network_value)
             then log1 ++ [ReqPurgeInvalidRoutes nicid]
             else log1)
        else mkOutcome (Ok false) self2 log
    end.

(** The body of the loop of [change_cluster_interface] for a cluster
    virtual interface and for a node interface. *)
Definition change_cvi (cluster_virtual network_value : PyVal)
    (st : SubInterface * bool) : SubInterface * bool :=
  let st1 :=
    if negb (py_eq cluster_virtual (sub_getattr st.1 "address"))
    then (sub_update [("address", cluster_virtual)] st.1, true)
    else st in
  if truthy network_value
     && negb (py_eq network_value (sub_getattr st1.1 "network_value"))
  then (sub_update [("network_value", network_value)] st1.1, true)
  else st1.

Definition node_get (node : gmap string PyVal) (k : string) : PyVal :=
  default VNone (node !! k).

Definition change_node (nodes : list (gmap string PyVal))
    (st : SubInterface * bool) : SubInterface * bool :=
  fold_left
    (fun (acc : SubInterface * bool) node =>
       if py_eq (node_get node "nodeid") (sub_getattr acc.1 "nodeid") then
         if negb (py_eq (sub_getattr acc.1 "address") (node_get node "address"))
            || negb (py_eq (sub_getattr acc.1 "network_value")
                       (node_get node "network_value"))
         then (sub_update [("address", node_get node "address");
                           ("network_value", node_get node "network_value")]
                 acc.1, true)
         else acc
       else acc)
    nodes st.

Fixpoint change_cluster_loop (cluster_virtual network_value : PyVal)
    (nodes : list (gmap string PyVal)) (l : list SubInterface)
    (original_network : PyVal) (change_made : bool)
  : list SubInterface * PyVal * bool :=
  match l with
  | [] => ([], original_network, change_made)
  | interface :: rest =>
      let original_network := sub_getattr interface "network_value" in
      let '(interface', change_made) :=
        if truthy cluster_virtual && isinstance_cvi interface
        then change_cvi cluster_virtual network_value (interface, change_made)
        else if (match nodes with [] => false | _ => true end)
                && isinstance_node interface
        then change_node nodes (interface, change_made)
        else (interface, change_made) in
      let '(rest', o, c) :=
        change_cluster_loop cluster_virtual network_value nodes rest
          original_network change_made in
      (interface' :: rest', o, c)
  end.

(** [Interface.change_cluster_interface(cluster_virtual, network_value,
    nodes, macaddress, vlan_id, zone_ref, comment)]; an omitted [nodes]
    is the empty list. *)
Definition change_cluster_interface (self : IData) (cluster_virtual
    network_value : PyVal) (nodes : list (gmap string PyVal))
    (mac vid zref cmt : PyVal) (log : list Request) : Outcome bool :=
  if has_vlan self && negb (truthy vid)
  then mkOutcome (Raise ModificationAborted) self log
  else
    match resolve_target self vid with
    | Raise err => mkOutcome (Raise err) self log
    | Ok target =>
        let itf := match target with Some (_, v) => v | None => self end in
        let nicid := interface_id itf in
        let st :=
          if truthy mac && negb (py_eq (macaddress self) mac)
          then (set_macaddress mac self, true) else (self, false) in
        let st :=
          if negb (bool_decide (cmt = VNone)) && negb (py_eq cmt (comment st.1))
          then (set_comment cmt st.1, true) else st in
        let '(self1, change_made) := stage_zone target zref st in
        let '(subs, original_network, change_made) :=
          if has_interfaces itf
             && ((match nodes with [] => false | _ => true end)
                 || truthy cluster_virtual)
          then change_cluster_loop cluster_virtual network_value nodes
                 (interfaces itf) VNone change_made
          else (interfaces itf, VNone, change_made) in
        let self2 := on_target target (set_interfaces subs) self1 in
        if change_made then
          let log1 := log ++ [ReqUpdate self2] in
          if truthy original_network then
            match (if truthy network_value then Ok network_value
                   else match interfaces self2 with
                        | i :: _ => Ok (sub_getattr i "network_value")
                        | [] => Raise StopIteration
                        end) with
            | Raise err => mkOutcome (Raise err) self2 log1
            | Ok new_mask =>
                mkOutcome (Ok true) self2
                  (if negb (py_eq new_mask original_network)
                   then log1 ++ [ReqPurgeInvalidRoutes nicid] else log1)
            end
          else mkOutcome (Ok true) self2 log1
        else mkOutcome (Ok false) self2 log
    end.

(** The body of the loop of [Interface.change_interface_id] for a VLAN
    view and for a sub-interface of the interface itself. *)
Definition relabel_vlan (iid : PyVal) (if1 : string) (vlan : IData)
  : Result unit * IData :=
  match interface_id vlan with
  | VStr vid =>
      let vlan1 :=
        set_interface_id (VStr (if1 +:+ "." +:+ last_part (split "." vid))) vlan in
      if has_interfaces vlan1 then
        let '(r, subs) :=
          for_each
            (lift_sub (fun sub_interface =>
               if isinstance_inline sub_interface
               then inline_change_interface_id iid sub_interface
               else sub_change_interface_id if1 sub_interface))
            (interfaces vlan1) in
        (r, set_interfaces subs vlan1)
      else (Ok tt, vlan1)
  | _ => (Raise AttributeError, vlan)
  end.

Definition relabel_sub (iid : PyVal) (if1 : string) (interface : SubInterface)
  : Result unit * SubInterface :=
  lift_sub (fun s =>
    if isinstance_inline s then inline_change_interface_id iid s
    else Ok (sub_update [("nicid", VStr if1)] s)) interface.

(** [Interface.change_interface_id(interface_id)] *)
Definition change_interface_id (self : IData) (iid : PyVal)
    (log : list Request) : Outcome unit :=
  let splitted := split "-" (py_str iid) in
  let if1 := first_part splitted in
  let '(r, vlans) := for_each (relabel_vlan iid if1) (vlans_of self) in
  let self1 :=
    set_vlanInterfaces (option_map (fun _ => vlans) (vlanInterfaces self)) self in
  match r with
  | Raise err => mkOutcome (Raise err) self1 log
  | Ok _ =>
      let '(r, subs) := for_each (relabel_sub iid if1) (interfaces self1) in
      let self2 := set_interfaces subs self1 in
      match r with
      | Raise err => mkOutcome (Raise err) self2 log
      | Ok _ =>
          let self3 := set_interface_id (VStr if1) self2 in
          mkOutcome (Ok tt) self3 (log ++ [ReqUpdate self3])
      end
  end.

(** [PhysicalInterface.remove_vlan(vlan_id)]: the body built by the
    builder is committed, after which the object shows that body. *)
Definition remove_vlan (e : Engine) (self : IData) (vid : PyVal)
    (log : list Request) : Outcome unit :=
  match get_vlan self vid with
  | Raise err => mkOutcome (Raise err) self log
  | Ok _ =>
      match (p ← getBuilder false e (interface_id self);
             builder_remove_vlan p.1 vid) with
      | Raise err => mkOutcome (Raise err) self log
      | Ok builder =>
          let log1 := log ++ [ReqUpdate builder] in
          let name := "VLAN " +:+ dotted (interface_id builder) vid in
          mkOutcome (Ok tt) builder
            (if bool_decide (name ∈ routing e)
             then log1 ++ [ReqDeleteRoute name] else log1)
      end
  end.

End Operations.

(** * Further operations of the module *)

(** [Interface.get_boolean(name)], behind [is_primary_mgt],
    [is_backup_mgt], [is_outgoing], [is_auth_request] and the heartbeat
    properties of [PhysicalInterface]. *)
Definition get_boolean (name : string) (d : IData) : bool :=
  existsb (fun vlan => existsb (carries name) (interfaces vlan)) (vlans_of d)
  || existsb (carries name) (interfaces d).

Definition is_primary_mgt : IData → bool := get_boolean "primary_mgt".
Definition is_backup_mgt : IData → bool := get_boolean "backup_mgt".
Definition is_outgoing : IData → bool := get_boolean "outgoing".
Definition is_auth_request : IData → bool := get_boolean "auth_request".

(** The loop [for attribute in intfattr: set_unset(...)] of
    [InterfaceOptions.set_primary_mgt]. *)
Fixpoint set_unset_each (m : InterfaceModifier) (iid : PyVal)
    (intfattr : list string) (address : PyVal) : Result InterfaceModifier :=
  match intfattr with
  | [] => Ok m
  | attribute :: rest =>
      m' ← set_unset m iid attribute address;
      set_unset_each m' iid rest address
  end.

(** [InterfaceOptions.set_primary_mgt(interface_id, auth_request,
    address)] up to the dispatch: the staged modifier. *)
Definition set_primary_mgt (m : InterfaceModifier) (iid auth_request address : PyVal)
  : Result InterfaceModifier :=
  let intfattr :=
    if String.eqb (engine_type m) "virtual_fw" then ["outgoing"]
    else ["primary_mgt"; "outgoing"] in
  m' ← set_unset_each m iid intfattr address;
  match auth_request with
  | VNone => set_auth_request m' iid address
  | _ => set_auth_request m' auth_request VNone
  end.

(** [InterfaceOptions.set_outgoing], [set_primary_heartbeat] and
    [set_backup_heartbeat], up to the dispatch. *)
Definition set_outgoing (m : InterfaceModifier) (iid : PyVal)
  : Result InterfaceModifier :=
  set_unset m iid "outgoing" VNone.

Definition set_primary_heartbeat (m : InterfaceModifier) (iid : PyVal)
  : Result InterfaceModifier :=
  set_unset m iid "primary_heartbeat" VNone.

Definition set_backup_heartbeat (m : InterfaceModifier) (iid : PyVal)
  : Result InterfaceModifier :=
  set_unset m iid "backup_heartbeat" VNone.

Section MoreOperations.

(** [SubInterface.change_vlan_id] and [InlineInterface.change_vlan_id]
    belong to [smc/core/sub_interfaces.py], which is not among the
    sources: both are parameters, as [zone_helper] is. *)
Context (zone_helper : PyVal → PyVal).
Context (sub_change_vlan_id : string → SubInterface → Result SubInterface).
Context (inline_change_vlan_id : PyVal → SubInterface → Result SubInterface).

(** [PhysicalInterface.add_layer3_interface(interface_id, address,
    network_value, zone_ref, is_mgmt, comment, kw)]: the body that is
    dispatched and the log. *)
Definition add_layer3_interface (e : Engine) (iid address network_value
    zref : PyVal) (is_mgmt : bool) (cmt : PyVal) (kw : list (string * PyVal))
    (log : list Request) : Result (IData * list Request) :=
  '(builder, interface) ← getBuilder false e iid;
  let builder :=
    if truthy zref then builder_set_zone zone_helper zref builder else builder in
  let builder :=
    if String.eqb (etype e) "single_fw"
    then add_sni_only builder address network_value is_mgmt kw
    else add_ndi_only builder address network_value (VInt 1) is_mgmt kw in
  let builder := set_comment_raw cmt builder in
  Ok (builder, dispatch builder interface log).

(** [TunnelInterface.add_layer3_interface(interface_id, address,
    network_value, zone_ref, comment)] *)
Definition tunnel_add_layer3_interface (e : Engine) (iid address network_value
    zref cmt : PyVal) (log : list Request) : Result (IData * list Request) :=
  '(builder, interface) ← getBuilder true e iid;
  let builder := set_comment_raw cmt builder in
  let builder := add_sni_only builder address network_value false [] in
  let builder :=
    if truthy zref then builder_set_zone zone_helper zref builder else builder in
  Ok (builder, dispatch builder interface log).

(** [PhysicalInterface.change_vlan_id(original, new)] *)
Definition change_vlan_id (self : IData) (original new : PyVal)
    (log : list Request) : Outcome unit :=
  match get_vlan self original with
  | Raise err => mkOutcome (Raise err) self log
  | Ok (j, vlan) =>
      let newvlan := split "-" (py_str new) in
      match interface_id vlan with
      | VStr vid =>
          let splitted := split "." vid in
          let vlan1 :=
            set_interface_id
              (VStr (first_part splitted +:+ "." +:+ first_part newvlan)) vlan in
          let '(r, subs) :=
            for_each
              (lift_sub (fun interface =>
                 if isinstance_inline interface
                 then inline_change_vlan_id new interface
                 else sub_change_vlan_id (first_part newvlan) interface))
              (interfaces vlan1) in
          let self1 :=
            set_vlanInterfaces
              (option_map (alter (fun _ => set_interfaces subs vlan1) j)
                 (vlanInterfaces self)) self in
          match r with
          | Raise err => mkOutcome (Raise err) self1 log
          | Ok _ => mkOutcome (Ok tt) self1 (log ++ [ReqUpdate self1])
          end
      | _ => mkOutcome (Raise AttributeError) self log
      end
  end.

End MoreOperations.

(** * Vocabulary of the statements *)


(** The interface [iid] is fresh on the engine: it does not exist yet,
    or it exists under that id and has no VLAN fragment. *)
Definition fresh_interface (e : Engine) (iid : PyVal) : Prop :=
  get (byEngine e) iid = Raise InterfaceNotFound
  ∨ ∃ o, get (byEngine e) iid = Ok o
         ∧ interface_id (obj_data o) = VStr (py_str iid)
         ∧ vlanInterfaces (obj_data o) = Some [].

(** Every VLAN fragment of [d] carries the composite id
    [<parent>.<vlan>] of the data model: the id of [d], a dot, and the
    VLAN id that [vlan_id] reads from the fragment. *)
Definition composite_vlan_ids (d : IData) : Prop :=
  Forall (fun v => ∀ t, vlan_id v = Some t →
                        interface_id v = VStr (py_str (interface_id d) +:+ "." +:+ t))
         (vlans_of d).

(** [id] is the nic id of the inline pair [s], or one of its halves. *)
Definition inline_half (id : string) (s : SubInterface) : Prop :=
  isinstance_inline s = true
  ∧ ∃ nicid, sub_getattr s "nicid" = VStr nicid
             ∧ (id = nicid ∨ id ∈ split "-" nicid).

(** The three ways in which the id [id] designates the top-level
    interface [d]: it is its id; it is the composite id [X.Y] of a VLAN
    [Y] that [d], whose id is [X], carries; or it is a plain id and
    names an inline pair of [d] or one half of it. *)
Definition matches_id (id : string) (d : IData) : Prop :=
  interface_id d = VStr id.

Definition matches_vlan (id : string) (d : IData) (v : IData) : Prop :=
  contains "." id = true
  ∧ interface_id d = VStr (first_part (split "." id))
  ∧ v ∈ vlans_of d
  ∧ vlan_id v = Some (last_part (split "." id)).

Definition matches_inline (id : string) (d : IData) : Prop :=
  contains "." id = false
  ∧ ∃ s, s ∈ interfaces d ∧ inline_half id s.

Definition resolvable (m : InterfaceModifier) (id : string) : Prop :=
  ∃ d, d ∈ _data m
       ∧ (matches_id id d ∨ (∃ v, matches_vlan id d v) ∨ matches_inline id d).

(** The object [o] is a match of [id] in the modifier: a top-level
    interface of it, or the view of one of its VLANs. *)
Definition resolves_to (m : InterfaceModifier) (id : string) (o : ItfObj) : Prop :=
  (∃ k, obj_ref o = TopLevel k
        ∧ _data m !! k = Some (obj_data o)
        ∧ (matches_id id (obj_data o) ∨ matches_inline id (obj_data o)))
  ∨ (∃ k j d, obj_ref o = VlanView k j
              ∧ _data m !! k = Some d
              ∧ vlans_of d !! j = Some (obj_data o)
              ∧ matches_vlan id d (obj_data o)).

(** The engine data is well formed in the sense of the data model: the
    ids of the top-level interfaces are unique, they are plain (the
    composite form with a dot is that of VLAN fragments), and an inline
    fragment names its pair in a string. *)
Definition plain_id (d : IData) : Prop :=
  ∀ s, interface_id d = VStr s → contains "." s = false.

Definition inline_nicids (d : IData) : Prop :=
  Forall (fun s => isinstance_inline s = true →
                   ∃ nicid, sub_getattr s "nicid" = VStr nicid) (interfaces d).

Definition well_formed_ids (l : list IData) : Prop :=
  NoDup (map interface_id l)
  ∧ Forall plain_id l
  ∧ Forall inline_nicids l.

(** Every sub-interface fragment of the engine, across all top-level
    interfaces and their VLANs. *)
Definition all_subs (l : list IData) : list SubInterface :=
  flat_map nested_subs l.

(** The fragment has the attribute equal to [True]. *)
Definition holds (attribute : string) (s : SubInterface) : bool :=
  bool_decide (sub_getattr s attribute = VBool true).

Definition count_holders (attribute : string) (l : list IData) : nat :=
  List.length (List.filter (holds attribute) (all_subs l)).

(** The fragments [set_unset] acts on: not inline, and defining the
    attribute; and those on the nic [id]. *)
Definition role_capable (attribute : string) (s : SubInterface) : bool :=
  negb (isinstance_inline s)
  && negb (bool_decide (sub_getattr s attribute = VNone)).

Definition on_nic (id : string) (s : SubInterface) : bool :=
  py_eq_str (sub_getattr s "nicid") id.

(** [engine.type] names a master, layer 2 or IPS engine. *)
Definition no_auth_request_type (t : string) : bool :=
  existsb (fun engine_type' => contains engine_type' t) ["master"; "layer2"; "ips"].

(** The ids of an interface body and of its VLAN fragments. *)
Definition ids_of (d : IData) : PyVal * list PyVal :=
  (interface_id d, map interface_id (vlans_of d)).

(** The test of the loop of [change_single_interface]. *)
Definition address_differs (address : PyVal) (s : SubInterface) : bool :=
  negb (py_eq (sub_getattr s "address") address).

(** * Example data *)

Definition sni (nicid address network_value : string) (primary_mgt : bool)
  : SubInterface :=
  sub_update [("primary_mgt", VBool primary_mgt)]
    (create_node SingleNode (VStr nicid) (VStr address) (VStr network_value)
       (VInt 1) []).

Definition physical (iid : string) (subs : list SubInterface)
    (vlans : list IData) : IData :=
  mkIData (VStr iid) subs (Some vlans) VNone VNone VNone VNone VNone.

Definition vlan_fragment (iid : string) (subs : list SubInterface) : IData :=
  mkIData (VStr iid) subs None VNone (VStr "") VNone VNone VNone.

(** Interface 12 with the VLAN 14, which holds one address. *)
Definition itf12 : IData :=
  physical "12" []
    [vlan_fragment "12.14" [sni "12.14" "14.14.14.1" "14.14.14.0/24" false]].

Definition engine12 : Engine := mkEngine "single_fw" [itf12] [].

(** The VLAN list of interface 12 and its one fragment, by name. *)
Definition itf12_vlan14 : IData :=
  vlan_fragment "12.14" [sni "12.14" "14.14.14.1" "14.14.14.0/24" false].

Definition itf12_vlans : list IData := [itf12_vlan14].

(** Interface 1 with two addresses, interface 2 with the primary
    management address. *)
Definition itf1_two_addresses : IData :=
  physical "1" [sni "1" "10.0.0.1" "10.0.0.0/24" false;
                sni "1" "10.0.1.1" "10.0.1.0/24" false] [].

Definition itf2_mgmt : IData :=
  physical "2" [sni "2" "10.0.2.1" "10.0.2.0/24" true] [].

Definition two_addresses : InterfaceModifier :=
  mkModifier "single_fw" [itf1_two_addresses; itf2_mgmt].

(** A cluster interface with node addresses only, on a firewall cluster
    and on a master engine. *)
Definition itf1_ndi_only : IData :=
  physical "1"
    [create_node Node (VStr "1") (VStr "5.5.5.2") (VStr "5.5.5.0/24") (VInt 1) [];
     create_node Node (VStr "1") (VStr "5.5.5.3") (VStr "5.5.5.0/24") (VInt 2) []]
    [].

Definition fw_cluster : InterfaceModifier := mkModifier "fw_cluster" [itf1_ndi_only].

Definition master_engine : InterfaceModifier :=
  mkModifier "master_engine" [itf1_ndi_only].

(** Interface 10 with the VLAN 5, which holds one address. *)
Definition itf10 : IData :=
  physical "10" []
    [vlan_fragment "10.5" [sni "10.5" "5.5.5.1" "5.5.5.0/24" false]].

(** An inline pair on interfaces 3 and 4. *)
Definition itf3_inline : IData :=
  physical "3" [mkSub Inline (<["nicid" := VStr "3-4"]> ∅)] [].

(** A single firewall: interface 1 with one address, interface 2 with
    the address that holds the management roles. *)
Definition sni_mgmt (nicid address network_value : string) : SubInterface :=
  sub_update [("auth_request", VBool true); ("outgoing", VBool true);
              ("primary_mgt", VBool true)]
    (create_node SingleNode (VStr nicid) (VStr address) (VStr network_value)
       (VInt 1) []).

Definition single_fw_two : InterfaceModifier :=
  mkModifier "single_fw"
    [physical "1" [sni "1" "10.0.0.1" "10.0.0.0/24" false] [];
     physical "2" [sni_mgmt "2" "10.0.0.2" "10.0.0.0/24"] []].

(** * Properties *)

(** ** Basic facts about the embedding *)




Lemma py_eq_refl (v : PyVal) : py_eq v v = true.
Proof.
  unfold py_eq. destruct (py_num v) as [x|].
  - apply Z.eqb_refl.
  - apply bool_decide_eq_true_2. reflexivity.
Qed.

Lemma py_eq_str_true (v : PyVal) (s : string) :
  py_eq_str v s = true ↔ v = VStr s.
Proof.
  destruct v as [ | b | n | t]; simpl; try (split; [discriminate | discriminate]).
  rewrite String.eqb_eq. split; [intros -> | intros [= ->]]; reflexivity.
Qed.

Lemma set_interfaces_same (d : IData) : set_interfaces (interfaces d) d = d.
Proof. destruct d; reflexivity. Qed.

Lemma set_vlanInterfaces_same (d : IData) :
  set_vlanInterfaces (vlanInterfaces d) d = d.
Proof. destruct d; reflexivity. Qed.

Lemma sub_getattr_setitem (k k' : string) (v : PyVal) (s : SubInterface) :
  sub_getattr (sub_setitem k v s) k' =
  if decide (k = k') then v else sub_getattr s k'.
Proof.
  unfold sub_getattr, sub_setitem; simpl. rewrite lookup_insert.
  destruct (decide (k = k')); reflexivity.
Qed.

Lemma typeof_setitem (k : string) (v : PyVal) (s : SubInterface) :
  typeof (sub_setitem k v s) = typeof s.
Proof. reflexivity. Qed.

Lemma sub_update_app (l1 l2 : list (string * PyVal)) (s : SubInterface) :
  sub_update (l1 ++ l2) s = sub_update l2 (sub_update l1 s).
Proof. unfold sub_update. apply fold_left_app. Qed.

Lemma typeof_update (kw : list (string * PyVal)) (s : SubInterface) :
  typeof (sub_update kw s) = typeof s.
Proof.
  revert s. induction kw as [ | p kw IH]; intros s; [reflexivity | ].
  simpl. rewrite IH. reflexivity.
Qed.

(** A keyword that is not staged leaves the attribute as it was. *)
Lemma sub_getattr_update_other (kw : list (string * PyVal)) (k : string)
    (s : SubInterface) :
  k ∉ kw.*1 → sub_getattr (sub_update kw s) k = sub_getattr s k.
Proof.
  revert s. induction kw as [ | [k' v] kw IH]; intros s Hk; [reflexivity | ].
  simpl in *. apply not_elem_of_cons in Hk as [Hne Hk].
  unfold sub_update in *. simpl. rewrite IH by assumption.
  rewrite sub_getattr_setitem. destruct (decide (k' = k)); congruence.
Qed.

(** ** Re-applying identical values *)

Lemma change_single_loop_same (address network_value : PyVal)
    (l : list SubInterface) (o : PyVal) (c : bool) :
  Forall (fun s => sub_getattr s "address" = address) l →
  change_single_loop address network_value l o c = (l, o, c).
Proof.
  induction 1 as [ | s l Hs _ IH]; [reflexivity | ].
  simpl. rewrite Hs, py_eq_refl. simpl. rewrite IH. reflexivity.
Qed.

(** C3.  On an interface without VLANs whose sub-interfaces all carry
    the given address and network value already,
    [change_single_interface(address, network_value)] without a zone
    stages nothing (the body is the one before), sends no request (the
    log is the one before) and returns [False]. *)
Theorem change_single_interface_same_values
    (zone_helper : PyVal → PyVal) (self : IData) (address network_value : PyVal)
    (log : list Request) :
  has_vlan self = false →
  Forall (fun s => sub_getattr s "address" = address
                   ∧ sub_getattr s "network_value" = network_value)
         (interfaces self) →
  change_single_interface zone_helper self address network_value VNone VNone log
  = mkOutcome (Ok false) self log.
Proof.
  intros Hvlan Hall. unfold change_single_interface.
  rewrite Hvlan. simpl.
  rewrite change_single_loop_same.
  - simpl. rewrite set_interfaces_same. reflexivity.
  - eapply Forall_impl; [exact Hall | ]. intros s [Ha _]. exact Ha.
Qed.

(** ** The VLAN guard *)

(** C4.  When the interface has a VLAN and no [vlan_id] is given (the
    argument is [None], or any value Python holds for false),
    [change_single_interface] and [change_cluster_interface] raise
    [ModificationAborted]; the body of the interface and the request log
    are the ones before the call. *)
Theorem change_interface_requires_vlan_id
    (zone_helper : PyVal → PyVal) (self : IData)
    (address network_value cluster_virtual mac zref cmt vid : PyVal)
    (nodes : list (gmap string PyVal)) (log : list Request) :
  has_vlan self = true →
  truthy vid = false →
  change_single_interface zone_helper self address network_value zref vid log
  = mkOutcome (Raise ModificationAborted) self log
  ∧ change_cluster_interface zone_helper self cluster_virtual network_value
      nodes mac vid zref cmt log
    = mkOutcome (Raise ModificationAborted) self log.
Proof.
  intros Hvlan Hvid.
  unfold change_single_interface, change_cluster_interface.
  rewrite Hvlan, Hvid. split; reflexivity.
Qed.

(** ** Fragments appended by the builder *)

Lemma create_node_typeof cls iid a n nodeid kw :
  typeof (create_node cls iid a n nodeid kw) = cls.
Proof. unfold create_node. apply typeof_update. Qed.

Lemma create_cvi_typeof iid a n kw :
  typeof (create_cvi iid a n kw) = ClusterVirtual.
Proof. unfold create_cvi. apply typeof_update. Qed.


Lemma create_cvi_fields iid a n kw :
  ("address" ∉ kw.*1 → sub_getattr (create_cvi iid a n kw) "address" = a)
  ∧ ("network_value" ∉ kw.*1 →
     sub_getattr (create_cvi iid a n kw) "network_value" = n)
  ∧ ("nicid" ∉ kw.*1 →
     sub_getattr (create_cvi iid a n kw) "nicid" = VStr (py_str iid)).
Proof.
  unfold create_cvi. rewrite !sub_update_app.
  repeat split; intros Hk; rewrite sub_getattr_update_other by assumption;
    reflexivity.
Qed.





(** ** A layer 3 VLAN on a fresh interface *)

(** C7.  [add_layer3_vlan_interface(interface_id=3, vlan_id=100,
    address="1.1.1.1", network_value="1.1.1.0/24")] on a fresh interface
    dispatches one request whose body has exactly one VLAN fragment; its
    composite id is ["3.100"] and its [interfaces] list holds exactly
    one sub-interface fragment, with address ["1.1.1.1"] (and the given
    network, under nic id ["3.100"]). *)
Theorem add_layer3_vlan_interface_fresh
    (zone_helper : PyVal → PyVal) (e : Engine) (log : list Request) :
  fresh_interface e (VInt 3) →
  ∃ body vlan s,
    add_layer3_vlan_interface zone_helper e (VInt 3) (VInt 100)
      (VStr "1.1.1.1") (VStr "1.1.1.0/24") VNone VNone VNone VNone log
    = Ok (body, log ++ [match get (byEngine e) (VInt 3) with
                        | Ok _ => ReqUpdate body
                        | Raise _ => ReqCreate body
                        end])
    ∧ vlanInterfaces body = Some [vlan]
    ∧ interface_id vlan = VStr "3.100"
    ∧ interfaces vlan = [s]
    ∧ sub_getattr s "address" = VStr "1.1.1.1"
    ∧ sub_getattr s "network_value" = VStr "1.1.1.0/24"
    ∧ sub_getattr s "nicid" = VStr "3.100".
Proof.
  intros [Hnone | (o & Hsome & Hid & Hvl)];
    unfold add_layer3_vlan_interface, getBuilder.
  - rewrite Hnone. simpl.
    destruct (String.eqb (etype e) "single_fw");
      (do 3 eexists; split;
       [ reflexivity | repeat split; reflexivity ]).
  - rewrite Hsome. simpl.
    unfold add_sni_to_vlan, add_ndi_to_vlan, append_vlan.
    rewrite Hvl, Hid. simpl.
    destruct (String.eqb (etype e) "single_fw");
      (do 3 eexists; split;
       [ reflexivity | repeat split; reflexivity ]).
Qed.

(** ** Relabelling an interface *)

Lemma for_each_lift_ok (f : SubInterface → Result SubInterface)
    (g : SubInterface → SubInterface) (l : list SubInterface) :
  Forall (fun s => f s = Ok (g s)) l →
  for_each (lift_sub f) l = (Ok tt, map g l).
Proof.
  induction 1 as [ | s l Hs _ IH]; [reflexivity | ].
  simpl. unfold lift_sub at 1. rewrite Hs, IH. reflexivity.
Qed.

Lemma Forall_map_setitem (k : string) (v : PyVal) (l : list SubInterface) :
  Forall (fun s => sub_getattr s k = v) (map (sub_setitem k v) l).
Proof.
  induction l as [ | s l IH]; simpl; constructor; [ | exact IH].
  rewrite sub_getattr_setitem. rewrite decide_True; reflexivity.
Qed.

Lemma sub_change_interface_id_vlan (newid parent vlan : string) (s : SubInterface) :
  sub_getattr s "nicid" = VStr (parent +:+ "." +:+ vlan) →
  split "." (parent +:+ "." +:+ vlan) = [parent; vlan] →
  sub_change_interface_id newid s
  = Ok (sub_setitem "nicid" (VStr (newid +:+ "." +:+ vlan)) s).
Proof.
  intros Hn Hs. unfold sub_change_interface_id. rewrite Hn, Hs. reflexivity.
Qed.

(** C9.  [change_interface_id("20")] on the interface ["10"] that carries
    the one VLAN ["10.5"] (sub-interfaces of the address kinds, nested
    under nic id ["10.5"]) succeeds; the committed body has interface id
    ["20"], its VLAN is relabelled ["20.5"], every sub-interface nested
    in the VLAN has nic id ["20.5"] and every sub-interface of the
    interface itself has nic id ["20"]; nothing else changes and one
    update request carries the body. *)
Theorem change_interface_id_relabels_vlan
    (inline_change_interface_id : PyVal → SubInterface → Result SubInterface)
    (self vlan : IData) (log : list Request) :
  interface_id self = VStr "10" →
  vlanInterfaces self = Some [vlan] →
  interface_id vlan = VStr "10.5" →
  Forall (fun s => isinstance_inline s = false
                   ∧ sub_getattr s "nicid" = VStr "10.5") (interfaces vlan) →
  Forall (fun s => isinstance_inline s = false) (interfaces self) →
  let out := change_interface_id inline_change_interface_id self (VStr "20") log in
  result out = Ok tt
  ∧ self_data out
    = set_interface_id (VStr "20")
        (set_interfaces (map (sub_setitem "nicid" (VStr "20")) (interfaces self))
           (set_vlanInterfaces
              (Some [set_interfaces
                       (map (sub_setitem "nicid" (VStr "20.5")) (interfaces vlan))
                       (set_interface_id (VStr "20.5") vlan)]) self))
  ∧ Forall (fun s => sub_getattr s "nicid" = VStr "20.5")
      (flat_map interfaces (vlans_of (self_data out)))
  ∧ Forall (fun s => sub_getattr s "nicid" = VStr "20")
      (interfaces (self_data out))
  ∧ sent out = log ++ [ReqUpdate (self_data out)].
Proof.
  intros Hid Hvl Hvid Hnested Hown out.
  assert (Hrel : relabel_vlan inline_change_interface_id (VStr "20") "20" vlan
                 = (Ok tt, set_interfaces
                             (map (sub_setitem "nicid" (VStr "20.5")) (interfaces vlan))
                             (set_interface_id (VStr "20.5") vlan))).
  { unfold relabel_vlan. rewrite Hvid.
    change (last_part (split "." "10.5")) with "5".
    change ("20" +:+ "." +:+ "5") with "20.5".
    unfold has_interfaces.
    change (interfaces (set_interface_id (VStr "20.5") vlan)) with (interfaces vlan).
    rewrite (for_each_lift_ok _ (sub_setitem "nicid" (VStr "20.5"))).
    - destruct (interfaces vlan) eqn:Hl; [ | reflexivity].
      simpl. destruct vlan; simpl in *; subst; reflexivity.
    - eapply Forall_impl; [exact Hnested | ].
      intros s [Hinl Hn]. simpl. rewrite Hinl.
      apply (sub_change_interface_id_vlan "20" "10" "5"); [exact Hn | reflexivity]. }
  assert (Hsubs : for_each (relabel_sub inline_change_interface_id (VStr "20") "20")
                    (interfaces self)
                  = (Ok tt, map (sub_setitem "nicid" (VStr "20")) (interfaces self))).
  { apply for_each_lift_ok. eapply Forall_impl; [exact Hown | ].
    intros s Hinl. simpl. rewrite Hinl. reflexivity. }
  assert (Hout : out = mkOutcome (Ok tt)
            (set_interface_id (VStr "20")
               (set_interfaces (map (sub_setitem "nicid" (VStr "20")) (interfaces self))
                  (set_vlanInterfaces
                     (Some [set_interfaces
                              (map (sub_setitem "nicid" (VStr "20.5")) (interfaces vlan))
                              (set_interface_id (VStr "20.5") vlan)]) self)))
            (log ++ [ReqUpdate
               (set_interface_id (VStr "20")
                  (set_interfaces (map (sub_setitem "nicid" (VStr "20")) (interfaces self))
                     (set_vlanInterfaces
                        (Some [set_interfaces
                                 (map (sub_setitem "nicid" (VStr "20.5")) (interfaces vlan))
                                 (set_interface_id (VStr "20.5") vlan)]) self)))])).
  { subst out. unfold change_interface_id, vlans_of. rewrite Hvl. simpl.
    change (first_part (split "-" "20")) with "20".
    rewrite Hrel. simpl. rewrite Hsubs. reflexivity. }
  rewrite Hout. simpl. repeat split.
  - rewrite app_nil_r. apply Forall_map_setitem.
  - apply Forall_map_setitem.
Qed.

(** ** Removing a VLAN *)

Lemma find_vlan_filter_none (vlan_str t : string) (vl : list IData) (j : nat) :
  Forall (fun v => vlan_id v = Some t → interface_id v = VStr vlan_str) vl →
  find_vlan (List.filter (fun v => negb (py_eq_str (interface_id v) vlan_str)) vl)
    t j = None.
Proof.
  intros H. revert j. induction H as [ | v vl Hv _ IH]; intros j; [reflexivity | ].
  simpl. destruct (py_eq_str (interface_id v) vlan_str) eqn:E; simpl.
  - apply IH.
  - destruct (bool_decide (vlan_id v = Some t)) eqn:B.
    + apply bool_decide_eq_true_1 in B. apply Hv in B.
      apply py_eq_str_true in B. congruence.
    + apply IH.
Qed.

Lemma filter_all_kept {A : Type} (f : A → bool) (l : list A) :
  Forall (fun x => f x = true) l → List.filter f l = l.
Proof.
  induction 1 as [ | x l Hx _ IH]; [reflexivity | ].
  simpl. rewrite Hx, IH. reflexivity.
Qed.

Lemma filter_twice {A : Type} (f : A → bool) (l : list A) :
  List.filter f (List.filter f l) = List.filter f l.
Proof.
  induction l as [ | x l IH]; [reflexivity | ].
  simpl. destruct (f x) eqn:E; simpl; [rewrite E, IH | rewrite IH]; reflexivity.
Qed.

Lemma get_vlan_raises (d : IData) (vid : PyVal) :
  find_vlan (vlans_of d) (py_str vid) 0 = None →
  get_vlan d vid = Raise InterfaceNotFound.
Proof. intros H. unfold get_vlan. rewrite H. reflexivity. Qed.

Lemma remove_vlan_absent (e : Engine) (self : IData) (vid : PyVal)
    (log : list Request) :
  get_vlan self vid = Raise InterfaceNotFound →
  remove_vlan e self vid log = mkOutcome (Raise InterfaceNotFound) self log.
Proof. intros H. unfold remove_vlan. rewrite H. reflexivity. Qed.

(** The two [remove_vlan] methods side by side.  On the builder,
    [remove_vlan(v)] never fails when the draft has a VLAN list: it drops the fragments whose
    composite id is [<interface_id>.<v>], so it changes nothing when
    there is none and a second call changes nothing.  On an interface,
    [PhysicalInterface.remove_vlan(v)] first looks the VLAN up: when no
    VLAN has that id it raises [InterfaceNotFound], with the body and
    the request log as before.  After a successful [remove_vlan(v)] on
    an interface whose VLAN fragments carry composite ids and whose body
    is the one the engine holds, [get_vlan(v)] raises
    [InterfaceNotFound], and so does a second [remove_vlan(v)], which
    sends nothing. *)
Theorem remove_vlan_absent_or_twice
    (e : Engine) (self b : IData) (vid : PyVal) (log : list Request) :
  (* the builder *)
  (∀ vl, vlanInterfaces b = Some vl →
     (∃ b', builder_remove_vlan b vid = Ok b'
            ∧ builder_remove_vlan b' vid = Ok b')
     ∧ (Forall (fun v => interface_id v ≠ VStr (dotted (interface_id b) vid)) vl →
        builder_remove_vlan b vid = Ok b))
  (* the interface, VLAN absent *)
  ∧ (get_vlan self vid = Raise InterfaceNotFound →
     remove_vlan e self vid log = mkOutcome (Raise InterfaceNotFound) self log)
  (* the interface, after a removal *)
  ∧ (result (remove_vlan e self vid log) = Ok tt →
     (∃ o, get (byEngine e) (interface_id self) = Ok o ∧ obj_data o = self) →
     composite_vlan_ids self →
     let self' := self_data (remove_vlan e self vid log) in
     get_vlan self' vid = Raise InterfaceNotFound
     ∧ ∀ e' log', remove_vlan e' self' vid log'
                  = mkOutcome (Raise InterfaceNotFound) self' log').
Proof.
  split; [ | split].
  - intros vl Hvl. split.
    + eexists. unfold builder_remove_vlan. rewrite Hvl. split; [reflexivity | ].
      simpl. rewrite filter_twice. reflexivity.
    + intros Hnone. unfold builder_remove_vlan. rewrite Hvl.
      rewrite filter_all_kept.
      * rewrite <- Hvl. rewrite set_vlanInterfaces_same. reflexivity.
      * eapply Forall_impl; [exact Hnone | ]. intros v Hv. simpl in Hv.
        destruct (py_eq_str (interface_id v) (dotted (interface_id b) vid)) eqn:E;
          [ | reflexivity].
        apply py_eq_str_true in E. contradiction.
  - apply remove_vlan_absent.
  - intros Hok (o & Hget & Ho) Hwf self'.
    assert (Hraise : get_vlan self' vid = Raise InterfaceNotFound).
    { subst self'. revert Hok. unfold remove_vlan.
      destruct (get_vlan self vid) as [p | err]; [ | discriminate].
      unfold getBuilder. rewrite Hget, Ho. simpl.
      unfold builder_remove_vlan.
      destruct (vlanInterfaces self) as [vl | ] eqn:Hvl; [ | discriminate].
      simpl. intros _.
      apply get_vlan_raises. unfold vlans_of. simpl.
      apply find_vlan_filter_none.
      unfold composite_vlan_ids, vlans_of in Hwf. rewrite Hvl in Hwf. simpl in Hwf.
      eapply Forall_impl; [exact Hwf | ]. intros v Hv Ht. simpl in *.
      apply Hv. exact Ht. }
    split; [exact Hraise | ].
    intros e' log'. apply remove_vlan_absent. exact Hraise.
Qed.

(** ** Looking an interface up *)

(** The string operations behave as Python's on the ids of the module. *)
Example split_composite : split "." "1.100" = ["1"; "100"].
Proof. reflexivity. Qed.

Example split_plain : split "." "12" = ["12"].
Proof. reflexivity. Qed.

Example split_inline_pair : split "-" "1.100-2.101" = ["1.100"; "2.101"].
Proof. reflexivity. Qed.

Example contains_cluster : contains "cluster" "fw_cluster" = true.
Proof. reflexivity. Qed.

Example dotted_ints : dotted (VInt 3) (VInt 100) = "3.100".
Proof. reflexivity. Qed.

(** An inline VLAN with a different tag on each side of the pair reads
    as both tags. *)
Example vlan_id_inline_pair :
  vlan_id (vlan_fragment "1.100"
             [mkSub Inline (<["nicid" := VStr "1.100-2.101"]> ∅)])
  = Some "100-101".
Proof. reflexivity. Qed.

Example get_inline_half :
  get (mkModifier "single_ips" [itf12; itf3_inline]) (VInt 4)
  = Ok (mkObj (TopLevel 1) itf3_inline).
Proof. reflexivity. Qed.

Example get_vlan_view :
  get (byEngine engine12) (VStr "12.14")
  = Ok (mkObj (VlanView 0 0)
          (vlan_fragment "12.14" [sni "12.14" "14.14.14.1" "14.14.14.0/24" false])).
Proof. reflexivity. Qed.

Lemma find_vlan_none (vl : list IData) (t : string) (j : nat) :
  find_vlan vl t j = None ↔ Forall (fun v => vlan_id v ≠ Some t) vl.
Proof.
  revert j. induction vl as [ | v vl IH]; intros j; simpl.
  - split; [constructor | reflexivity].
  - destruct (bool_decide (vlan_id v = Some t)) eqn:B.
    + apply bool_decide_eq_true_1 in B. split; [discriminate | ].
      intros H. apply Forall_cons in H as [H _]. contradiction.
    + apply bool_decide_eq_false_1 in B. rewrite IH, Forall_cons. tauto.
Qed.

Lemma find_vlan_some (vl : list IData) (t : string) (j0 j : nat) (v : IData) :
  find_vlan vl t j0 = Some (j, v) →
  ∃ k, j = j0 + k ∧ vl !! k = Some v ∧ vlan_id v = Some t.
Proof.
  revert j0. induction vl as [ | w vl IH]; intros j0; simpl; [discriminate | ].
  destruct (bool_decide (vlan_id w = Some t)) eqn:B.
  - apply bool_decide_eq_true_1 in B. intros [= <- <-].
    exists 0. rewrite Nat.add_0_r. auto.
  - intros H. apply IH in H as (k & -> & Hk & Ht).
    exists (S k). split; [lia | auto].
Qed.

Lemma inline_scan_spec (id : string) (l : list SubInterface) :
  Forall (fun s => isinstance_inline s = true →
                   ∃ nicid, sub_getattr s "nicid" = VStr nicid) l →
  (inline_scan id l = Ok true ∧ ∃ s, s ∈ l ∧ inline_half id s)
  ∨ (inline_scan id l = Ok false ∧ ∀ s, s ∈ l → ¬ inline_half id s).
Proof.
  induction 1 as [ | s l Hs _ IH]; simpl.
  - right. split; [reflexivity | ]. intros s Hs. inversion Hs.
  - destruct (isinstance_inline s) eqn:Hinl.
    + destruct (Hs eq_refl) as [nicid Hn]. rewrite Hn.
      destruct (String.eqb id nicid || bool_decide (id ∈ split "-" nicid)) eqn:E.
      * left. split; [reflexivity | ]. exists s. split; [left | ].
        split; [exact Hinl | ]. exists nicid. split; [exact Hn | ].
        apply orb_true_iff in E as [E | E].
        -- left. apply String.eqb_eq. exact E.
        -- right. apply bool_decide_eq_true_1 in E. exact E.
      * apply orb_false_iff in E as [E1 E2].
        apply String.eqb_neq in E1. apply bool_decide_eq_false_1 in E2.
        destruct IH as [[-> (s' & Hin & Hh)] | [-> Hno]].
        -- left. split; [reflexivity | ]. exists s'. split; [right; exact Hin | exact Hh].
        -- right. split; [reflexivity | ]. intros s' Hin Hh.
           apply elem_of_cons in Hin as [-> | Hin]; [ | exact (Hno s' Hin Hh)].
           destruct Hh as (_ & n' & Hn' & Hor).
           rewrite Hn in Hn'. injection Hn' as <-. tauto.
    + destruct IH as [[-> (s' & Hin & Hh)] | [-> Hno]].
      * left. split; [reflexivity | ]. exists s'. split; [right; exact Hin | exact Hh].
      * right. split; [reflexivity | ]. intros s' Hin Hh.
        apply elem_of_cons in Hin as [-> | Hin]; [ | exact (Hno s' Hin Hh)].
        destruct Hh as (Hinl' & _). congruence.
Qed.

(** The loop of [get] on well-formed data: it returns a match, or it
    raises [InterfaceNotFound] and no interface of the list is one. *)
Lemma get_loop_spec (l : list IData) (i : nat) (id : string) :
  well_formed_ids l →
  (∃ o, get_loop l i id = Ok o
        ∧ ((∃ k, obj_ref o = TopLevel (i + k)
                 ∧ l !! k = Some (obj_data o)
                 ∧ (matches_id id (obj_data o) ∨ matches_inline id (obj_data o)))
           ∨ (∃ k j d, obj_ref o = VlanView (i + k) j
                       ∧ l !! k = Some d
                       ∧ vlans_of d !! j = Some (obj_data o)
                       ∧ matches_vlan id d (obj_data o))))
  ∨ (get_loop l i id = Raise InterfaceNotFound
     ∧ ∀ d, d ∈ l →
         ¬ (matches_id id d ∨ (∃ v, matches_vlan id d v) ∨ matches_inline id d)).
Proof.
  revert i. induction l as [ | d l IH]; intros i (Hnd & Hplain & Htyped).
  - right. split; [reflexivity | ]. intros d Hd. inversion Hd.
  - simpl in Hnd. apply NoDup_cons in Hnd as [Hfresh Hnd].
    apply Forall_cons in Hplain as [Hpd Hplain].
    apply Forall_cons in Htyped as [Htd Htyped].
    assert (Hwf : well_formed_ids l) by (repeat split; assumption).
    (* the outcome of the rest of the loop, shifted by one position *)
    assert (Hrest :
      ¬ (matches_id id d ∨ (∃ v, matches_vlan id d v) ∨ matches_inline id d) →
      (∃ o, get_loop l (S i) id = Ok o
            ∧ ((∃ k, obj_ref o = TopLevel (i + k)
                     ∧ (d :: l) !! k = Some (obj_data o)
                     ∧ (matches_id id (obj_data o) ∨ matches_inline id (obj_data o)))
               ∨ (∃ k j d0, obj_ref o = VlanView (i + k) j
                            ∧ (d :: l) !! k = Some d0
                            ∧ vlans_of d0 !! j = Some (obj_data o)
                            ∧ matches_vlan id d0 (obj_data o))))
      ∨ (get_loop l (S i) id = Raise InterfaceNotFound
         ∧ ∀ d0, d0 ∈ d :: l →
             ¬ (matches_id id d0 ∨ (∃ v, matches_vlan id d0 v)
                ∨ matches_inline id d0))).
    { intros Hd. destruct (IH (S i) Hwf) as [(o & Ho & Hm) | [Hr Hno]].
      - left. exists o. split; [exact Ho | ].
        destruct Hm as [(k & Hk & Hl & Hm) | (k & j & d0 & Hk & Hl & Hv & Hm)].
        + left. exists (S k). rewrite Hk. split; [f_equal; lia | ]. auto.
        + right. exists (S k), j, d0. rewrite Hk. split; [f_equal; lia | ]. auto.
      - right. split; [exact Hr | ]. intros d0 Hin.
        apply elem_of_cons in Hin as [-> | Hin]; [exact Hd | exact (Hno d0 Hin)]. }
    simpl. destruct (py_eq_str (interface_id d) id) eqn:Eid.
    { apply py_eq_str_true in Eid. left. eexists. split; [reflexivity | ].
      left. exists 0. simpl. rewrite Nat.add_0_r. auto. }
    assert (Hnid : ¬ matches_id id d).
    { unfold matches_id. intros H. apply py_eq_str_true in H. congruence. }
    destruct (contains "." id) eqn:Edot.
    + assert (Hninl : ¬ matches_inline id d).
      { intros [H _]. congruence. }
      destruct (py_eq_str (interface_id d) (first_part (split "." id))
                && has_vlan d) eqn:Ex.
      * apply andb_true_iff in Ex as [Ex _]. apply py_eq_str_true in Ex.
        unfold get_vlan. simpl.
        destruct (find_vlan (vlans_of d) (last_part (split "." id)) 0)
          as [[j v] | ] eqn:Ef.
        -- apply find_vlan_some in Ef as (k & -> & Hk & Hv).
           left. eexists. split; [reflexivity | ].
           right. exists 0, k, d. simpl. rewrite Nat.add_0_r.
           repeat split; try assumption; try reflexivity.
           apply list_elem_of_lookup. exists k. exact Hk.
        -- right. split; [reflexivity | ].
           apply find_vlan_none in Ef.
           intros d0 Hin [Hm | [(v & _ & Hx & Hv & Ht) | [Hc _]]].
           ++ (* a top-level id is plain *)
              apply elem_of_cons in Hin as [-> | Hin]; [exact (Hnid Hm) | ].
              rewrite Forall_forall in Hplain.
              specialize (Hplain d0 Hin id Hm). congruence.
           ++ apply elem_of_cons in Hin as [-> | Hin].
              ** rewrite Forall_forall in Ef. exact (Ef v Hv Ht).
              ** (* the id before the dot is that of [d] alone *)
                 apply Hfresh. rewrite Ex, <- Hx.
                 apply list_elem_of_In, in_map, list_elem_of_In. exact Hin.
           ++ congruence.
      * apply Hrest. intros [H | [(v & _ & Hx & Hv & Ht) | H]];
          [exact (Hnid H) | | exact (Hninl H)].
        apply andb_false_iff in Ex as [Ex | Ex].
        -- apply py_eq_str_true in Hx. congruence.
        -- unfold has_vlan in Ex. destruct (vlans_of d); [inversion Hv | discriminate].
    + assert (Hnv : ¬ ∃ v, matches_vlan id d v).
      { intros (v & H & _). congruence. }
      destruct (has_interfaces d) eqn:Ehas.
      * destruct (inline_scan_spec id (interfaces d) Htd)
          as [[-> (s & Hin & Hh)] | [-> Hno]]; simpl.
        -- left. eexists. split; [reflexivity | ].
           left. exists 0. simpl. rewrite Nat.add_0_r.
           repeat split; try reflexivity. right. split; [exact Edot | eauto].
        -- apply Hrest. intros [H | [H | (_ & s & Hin & Hh)]];
             [exact (Hnid H) | exact (Hnv H) | exact (Hno s Hin Hh)].
      * apply Hrest. intros [H | [H | (_ & s & Hin & _)]];
          [exact (Hnid H) | exact (Hnv H) | ].
        unfold has_interfaces in Ehas.
        destruct (interfaces d); [inversion Hin | discriminate].
Qed.

(** C5.  On well-formed engine data, [get(interface_id)] returns a
    match of the id: the top-level interface with that id, the view of
    VLAN [Y] of interface [X] for a composite id [X.Y], or the top-level
    interface with an inline pair that the id names whole or by one
    half.  It returns one whenever one exists, and it raises
    [InterfaceNotFound] exactly when none exists. *)
Theorem get_resolves_or_not_found (m : InterfaceModifier) (iid : PyVal) :
  well_formed_ids (_data m) →
  (∀ o, get m iid = Ok o → resolves_to m (py_str iid) o)
  ∧ (resolvable m (py_str iid) → ∃ o, get m iid = Ok o)
  ∧ (get m iid = Raise InterfaceNotFound ↔ ¬ resolvable m (py_str iid)).
Proof.
  intros Hwf. unfold get.
  destruct (get_loop_spec (_data m) 0 (py_str iid) Hwf)
    as [(o & Ho & Hm) | [Hr Hno]].
  - assert (Hres : resolves_to m (py_str iid) o).
    { destruct Hm as [(k & Hk & Hl & Hm) | (k & j & d & Hk & Hl & Hv & Hm)].
      - left. exists k. auto.
      - right. exists k, j, d. auto. }
    assert (Hable : resolvable m (py_str iid)).
    { destruct Hres as [(k & _ & Hl & Hm') | (k & j & d & _ & Hl & _ & Hm')].
      - exists (obj_data o). split; [apply list_elem_of_lookup; eauto | ].
        destruct Hm'; auto.
      - exists d. split; [apply list_elem_of_lookup; eauto | ]. eauto. }
    rewrite Ho. split; [ | split].
    + intros o' [= <-]. exact Hres.
    + intros _. eauto.
    + split; [discriminate | intros H; contradiction].
  - rewrite Hr. split; [ | split].
    + intros o [=].
    + intros (d & Hin & Hm). exfalso. exact (Hno d Hin Hm).
    + split; [ | reflexivity]. intros _ (d & Hin & Hm). exact (Hno d Hin Hm).
Qed.

(** ** One owner of a role *)

Lemma flat_map_interfaces_map (f : SubInterface → SubInterface) (vl : list IData) :
  flat_map interfaces (map (map_interfaces f) vl) = map f (flat_map interfaces vl).
Proof.
  induction vl as [ | v vl IH]; [reflexivity | ].
  simpl. rewrite IH, map_app. reflexivity.
Qed.

Lemma nested_subs_map_subs (f : SubInterface → SubInterface) (d : IData) :
  nested_subs (map_subs f d) = map f (nested_subs d).
Proof.
  unfold nested_subs, map_subs, vlans_of. simpl.
  destruct (vlanInterfaces d) as [vl | ]; simpl.
  - rewrite flat_map_interfaces_map, map_app. reflexivity.
  - reflexivity.
Qed.

Lemma all_subs_map_subs (f : SubInterface → SubInterface) (l : list IData) :
  all_subs (map (map_subs f) l) = map f (all_subs l).
Proof.
  unfold all_subs. induction l as [ | d l IH]; [reflexivity | ].
  simpl. rewrite IH, nested_subs_map_subs, map_app. reflexivity.
Qed.

Lemma filter_map_length {A : Type} (p q : A → bool) (f : A → A) (l : list A) :
  (∀ x, p (f x) = q x) →
  List.length (List.filter p (map f l)) = List.length (List.filter q l).
Proof.
  intros H. induction l as [ | x l IH]; [reflexivity | ].
  simpl. rewrite H. destruct (q x); simpl; rewrite IH; reflexivity.
Qed.

(** What the loop body does to one fragment when no address is given. *)
Lemma set_unset_sub_no_address (id attribute : string) (s : SubInterface) :
  set_unset_sub id attribute VNone VNone s
  = if role_capable attribute s
    then sub_setitem attribute (VBool (on_nic id s)) s
    else s.
Proof.
  unfold set_unset_sub, role_capable, on_nic.
  destruct (isinstance_inline s); [reflexivity | ].
  destruct (bool_decide (sub_getattr s attribute = VNone)); [reflexivity | ].
  simpl. destruct (py_eq_str (sub_getattr s "nicid") id); reflexivity.
Qed.

Lemma holds_set_unset_sub (id attribute : string) (s : SubInterface) :
  holds attribute (set_unset_sub id attribute VNone VNone s)
  = if role_capable attribute s then on_nic id s else holds attribute s.
Proof.
  rewrite set_unset_sub_no_address.
  destruct (role_capable attribute s); [ | reflexivity].
  unfold holds. rewrite sub_getattr_setitem, decide_True by reflexivity.
  destruct (on_nic id s); reflexivity.
Qed.

Lemma set_unset_no_address (m : InterfaceModifier) (iid : PyVal)
    (attribute : string) :
  (iid = VNone ∨ ∃ o, get m iid = Ok o) →
  set_unset m iid attribute VNone
  = Ok (mkModifier (engine_type m)
          (map (map_subs (set_unset_sub (py_str iid) attribute VNone VNone))
             (_data m))).
Proof.
  intros [-> | (o & Ho)]; unfold set_unset; [reflexivity | ].
  rewrite Ho. destruct iid; reflexivity.
Qed.

Lemma filter_exists_length {A : Type} (p : A → bool) (l : list A) :
  Exists (fun x => p x = true) l → (1 ≤ List.length (List.filter p l))%nat.
Proof.
  induction 1 as [x l Hx | x l _ IH]; simpl.
  - rewrite Hx. simpl. lia.
  - destruct (p x); simpl; lia.
Qed.

(** C1, as the code has it.  When [get(i)] succeeds and some fragment
    on the nic of [i] can bear the role, [set_unset(i, attribute)]
    without an address succeeds and rewrites every fragment of the
    engine by the loop body: a fragment that is not inline and defines
    the attribute gets it [True] when its nic id is [str(i)] and [False]
    otherwise; the other fragments are left as they are.  So the number
    of fragments holding the attribute afterwards is the number of
    role-capable fragments on the nic of [i] (plus the untouched ones
    that held it), whatever number held it before: at least one, and one
    exactly when that number is one. *)
Theorem set_unset_flags_the_target_nic
    (m : InterfaceModifier) (iid : PyVal) (attribute : string) (o : ItfObj) :
  get m iid = Ok o →
  Exists (fun s => role_capable attribute s && on_nic (py_str iid) s = true)
         (all_subs (_data m)) →
  ∃ m',
    set_unset m iid attribute VNone = Ok m'
    ∧ engine_type m' = engine_type m
    ∧ all_subs (_data m')
      = map (fun s => if role_capable attribute s
                      then sub_setitem attribute
                             (VBool (on_nic (py_str iid) s)) s
                      else s)
          (all_subs (_data m))
    ∧ count_holders attribute (_data m')
      = List.length (List.filter
                  (fun s => if role_capable attribute s
                            then on_nic (py_str iid) s
                            else holds attribute s)
                  (all_subs (_data m)))
    ∧ (1 ≤ count_holders attribute (_data m'))%nat.
Proof.
  intros Ho Hsome.
  assert (Hcount :
    count_holders attribute
      (map (map_subs (set_unset_sub (py_str iid) attribute VNone VNone)) (_data m))
    = List.length (List.filter
                (fun s => if role_capable attribute s
                          then on_nic (py_str iid) s
                          else holds attribute s)
                (all_subs (_data m)))).
  { unfold count_holders. rewrite all_subs_map_subs.
    apply filter_map_length. intros s. apply holds_set_unset_sub. }
  eexists. split; [ | split; [ | split; [ | split]]].
  - apply set_unset_no_address. right. eauto.
  - reflexivity.
  - simpl. rewrite all_subs_map_subs. apply map_ext.
    intros s. apply set_unset_sub_no_address.
  - exact Hcount.
  - simpl. rewrite Hcount. apply filter_exists_length.
    eapply Exists_impl; [exact Hsome | ]. intros s Hs. simpl in Hs.
    apply andb_true_iff in Hs as [-> ->]. reflexivity.
Qed.

(** Counterexample to C1 as stated: interface 1 has two addresses; after
    [set_unset(1, 'primary_mgt')] both hold [primary_mgt]. *)
Lemma set_unset_two_addresses_two_holders :
  (∃ o, get two_addresses (VInt 1) = Ok o)
  ∧ count_holders "primary_mgt" (_data two_addresses) = 1
  ∧ ∃ m', set_unset two_addresses (VInt 1) "primary_mgt" VNone = Ok m'
          ∧ count_holders "primary_mgt" (_data m') = 2.
Proof.
  split; [eexists; reflexivity | ].
  split; [reflexivity | ].
  eexists. split; [reflexivity | ]. reflexivity.
Qed.

(** ** Unsetting a role everywhere *)

Lemma carries_set_unset_none (attribute : string) (s : SubInterface) :
  sub_getattr s "nicid" ≠ VStr "None" →
  (isinstance_inline s = true → carries attribute s = false) →
  set_unset_sub "None" attribute VNone VNone s
  = (if role_capable attribute s
     then sub_setitem attribute (VBool false) s else s)
  ∧ carries attribute (set_unset_sub "None" attribute VNone VNone s) = false.
Proof.
  intros Hnic Hinl. rewrite set_unset_sub_no_address.
  assert (Hoff : on_nic "None" s = false).
  { unfold on_nic. destruct (py_eq_str (sub_getattr s "nicid") "None") eqn:E;
      [ | reflexivity].
    apply py_eq_str_true in E. contradiction. }
  rewrite Hoff. split; [reflexivity | ].
  unfold role_capable.
  destruct (isinstance_inline s) eqn:Ei; simpl; [auto | ].
  destruct (bool_decide (sub_getattr s attribute = VNone)) eqn:B; simpl.
  - apply bool_decide_eq_true_1 in B. unfold carries. rewrite B. reflexivity.
  - unfold carries. rewrite sub_getattr_setitem, decide_True by reflexivity.
    reflexivity.
Qed.

(** C10.  [set_unset(None, attribute)], the call that
    [set_backup_mgt(None)] makes with ['backup_mgt'], looks no interface
    up and succeeds.  On engine data in which no nic id is the text
    ["None"] and no inline fragment carries the role, it sets the
    attribute to [False] on every fragment that defines it and leaves
    the others as they are, so that afterwards no fragment of the engine
    carries the role. *)
Theorem set_unset_none_unsets_everywhere
    (m : InterfaceModifier) (attribute : string) :
  Forall (fun s => sub_getattr s "nicid" ≠ VStr "None") (all_subs (_data m)) →
  Forall (fun s => isinstance_inline s = true → carries attribute s = false)
         (all_subs (_data m)) →
  set_backup_mgt m VNone = set_unset m VNone "backup_mgt" VNone
  ∧ ∃ m',
      set_unset m VNone attribute VNone = Ok m'
      ∧ all_subs (_data m')
        = map (fun s => if role_capable attribute s
                        then sub_setitem attribute (VBool false) s else s)
            (all_subs (_data m))
      ∧ Forall (fun s => carries attribute s = false) (all_subs (_data m')).
Proof.
  intros Hnic Hinl. split; [reflexivity | ].
  eexists. split; [apply set_unset_no_address; left; reflexivity | ].
  simpl. rewrite all_subs_map_subs.
  induction (all_subs (_data m)) as [ | s l IH]; [split; constructor | ].
  apply Forall_cons in Hnic as [Hs Hnic]. apply Forall_cons in Hinl as [Hi Hinl].
  destruct (IH Hnic Hinl) as [IH1 IH2].
  destruct (carries_set_unset_none attribute s Hs Hi) as [E1 E2].
  simpl. split.
  - rewrite E1, IH1. reflexivity.
  - constructor; assumption.
Qed.

(** ** The auth request interface *)

(** C6.  On a master, layer 2 or IPS engine, [set_auth_request] returns
    with the modifier as it was.  On any other clustered engine, it
    raises [InterfaceNotFound] when the interface that [get] returns for
    the id has no [ClusterVirtualInterface] among the sub-interfaces of
    its collection (and when [get] finds no interface at all). *)
Theorem set_auth_request_guards
    (m : InterfaceModifier) (iid address : PyVal) :
  (no_auth_request_type (engine_type m) = true →
   set_auth_request m iid address = Ok m)
  ∧ (no_auth_request_type (engine_type m) = false →
     contains "cluster" (engine_type m) = true →
     (get m iid = Raise InterfaceNotFound
      ∨ ∃ o, get m iid = Ok o
             ∧ Forall (fun s => typeof s ≠ ClusterVirtual) (interfaces (obj_data o))) →
     set_auth_request m iid address = Raise InterfaceNotFound).
Proof.
  unfold set_auth_request, no_auth_request_type. split.
  - intros ->. reflexivity.
  - intros -> Hc [Hget | (o & Hget & Hno)]; rewrite Hget; [reflexivity | ].
    simpl. rewrite Hc.
    assert (E : existsb isinstance_cvi (interfaces (obj_data o)) = false).
    { induction Hno as [ | s l Hs _ IH]; [reflexivity | ].
      simpl. rewrite IH. unfold isinstance_cvi.
      rewrite bool_decide_eq_false_2 by exact Hs. reflexivity. }
    rewrite E. reflexivity.
Qed.

(** * The theorems on the example data *)

Lemma change_single_interface_same_values_witness :
  has_vlan itf2_mgmt = false
  ∧ change_single_interface (fun zone => zone) itf2_mgmt (VStr "10.0.2.1")
      (VStr "10.0.2.0/24") VNone VNone []
    = mkOutcome (Ok false) itf2_mgmt [].
Proof.
  split; [reflexivity | ].
  apply change_single_interface_same_values;
    [reflexivity | repeat constructor].
Defined.

Lemma change_interface_requires_vlan_id_witness :
  has_vlan itf12 = true
  ∧ change_single_interface (fun zone => zone) itf12 (VStr "14.14.14.2")
      (VStr "14.14.14.0/24") VNone VNone []
    = mkOutcome (Raise ModificationAborted) itf12 [].
Proof.
  split; [reflexivity | ].
  exact (proj1 (change_interface_requires_vlan_id (fun zone => zone) itf12
                  (VStr "14.14.14.2") (VStr "14.14.14.0/24") VNone VNone VNone
                  VNone VNone [] [] eq_refl eq_refl)).
Defined.


Lemma add_layer3_vlan_interface_fresh_witness :
  fresh_interface engine12 (VInt 3)
  ∧ ∃ body vlan s,
      add_layer3_vlan_interface (fun zone => zone) engine12 (VInt 3) (VInt 100)
        (VStr "1.1.1.1") (VStr "1.1.1.0/24") VNone VNone VNone VNone []
      = Ok (body, [] ++ [match get (byEngine engine12) (VInt 3) with
                         | Ok _ => ReqUpdate body
                         | Raise _ => ReqCreate body
                         end])
      ∧ vlanInterfaces body = Some [vlan]
      ∧ interface_id vlan = VStr "3.100"
      ∧ interfaces vlan = [s]
      ∧ sub_getattr s "address" = VStr "1.1.1.1"
      ∧ sub_getattr s "network_value" = VStr "1.1.1.0/24"
      ∧ sub_getattr s "nicid" = VStr "3.100".
Proof.
  assert (H : fresh_interface engine12 (VInt 3)) by (left; reflexivity).
  split; [exact H | ].
  exact (add_layer3_vlan_interface_fresh (fun zone => zone) engine12 [] H).
Defined.

Lemma change_interface_id_relabels_vlan_witness :
  result (change_interface_id (fun _ s => Ok s) itf10 (VStr "20") []) = Ok tt
  ∧ Forall (fun s => sub_getattr s "nicid" = VStr "20.5")
      (flat_map interfaces
         (vlans_of (self_data (change_interface_id (fun _ s => Ok s) itf10
                                 (VStr "20") [])))).
Proof.
  destruct (change_interface_id_relabels_vlan (fun _ s => Ok s) itf10
              (vlan_fragment "10.5" [sni "10.5" "5.5.5.1" "5.5.5.0/24" false]) []
              eq_refl eq_refl eq_refl)
    as (Hres & _ & Hnested & _ & _).
  - repeat constructor.
  - constructor.
  - split; [exact Hres | exact Hnested].
Defined.

Lemma composite_vlan_ids_itf12 : composite_vlan_ids itf12.
Proof.
  unfold composite_vlan_ids. repeat constructor.
  intros t Ht. vm_compute in Ht. injection Ht as <-. reflexivity.
Defined.

Lemma remove_vlan_absent_or_twice_witness :
  result (remove_vlan engine12 itf12 (VInt 14) []) = Ok tt
  ∧ composite_vlan_ids itf12
  ∧ get_vlan (self_data (remove_vlan engine12 itf12 (VInt 14) [])) (VInt 14)
    = Raise InterfaceNotFound.
Proof.
  split; [reflexivity | ]. split; [exact composite_vlan_ids_itf12 | ].
  destruct (remove_vlan_absent_or_twice engine12 itf12 itf12 (VInt 14) [])
    as (_ & _ & Hafter).
  apply Hafter.
  - reflexivity.
  - eexists. split; reflexivity.
  - exact composite_vlan_ids_itf12.
Defined.

(** C2.  The claim, and the docstring of [PhysicalInterface.remove_vlan]
    ("This is a no-op if the VLAN specified does not exist"), against
    the code.  Interface 12 has the VLAN 14 only.  [remove_vlan(15)]
    raises [InterfaceNotFound] where a no-op is promised, while the
    builder's [remove_vlan(15)] on the same body is that no-op.  After
    [remove_vlan(14)] has succeeded, [get_vlan(14)] raises
    [InterfaceNotFound] as the claim says, but the second
    [remove_vlan(14)] on the committed body raises too. *)
Lemma remove_vlan_absent_is_an_error :
  get_vlan itf12 (VInt 15) = Raise InterfaceNotFound
  ∧ remove_vlan engine12 itf12 (VInt 15) []
    = mkOutcome (Raise InterfaceNotFound) itf12 []
  ∧ builder_remove_vlan itf12 (VInt 15) = Ok itf12
  ∧ result (remove_vlan engine12 itf12 (VInt 14) []) = Ok tt
  ∧ get_vlan (self_data (remove_vlan engine12 itf12 (VInt 14) [])) (VInt 14)
    = Raise InterfaceNotFound
  ∧ result (remove_vlan
              (mkEngine "single_fw"
                 [self_data (remove_vlan engine12 itf12 (VInt 14) [])] [])
              (self_data (remove_vlan engine12 itf12 (VInt 14) []))
              (VInt 14) [])
    = Raise InterfaceNotFound.
Proof.
  split; [reflexivity | ]. split; [reflexivity | ]. split; [reflexivity | ].
  split; [reflexivity | ]. split; reflexivity.
Qed.

Lemma well_formed_two_addresses : well_formed_ids (_data two_addresses).
Proof.
  split; [ | split].
  - simpl. apply NoDup_cons. split.
    + intros H. apply elem_of_cons in H as [H | H]; [discriminate | inversion H].
    + apply NoDup_cons. split; [intros H; inversion H | apply NoDup_nil_2].
  - repeat constructor; intros s [= <-]; reflexivity.
  - repeat constructor; intros H; vm_compute in H; discriminate.
Defined.

Lemma get_resolves_or_not_found_witness :
  well_formed_ids (_data two_addresses)
  ∧ (∃ o, get two_addresses (VInt 2) = Ok o)
  ∧ ¬ resolvable two_addresses "7".
Proof.
  split; [exact well_formed_two_addresses | ]. split.
  - destruct (get_resolves_or_not_found two_addresses (VInt 2)
                well_formed_two_addresses) as (_ & Hsome & _).
    apply Hsome. exists itf2_mgmt. split.
    + right. left.
    + left. reflexivity.
  - destruct (get_resolves_or_not_found two_addresses (VInt 7)
                well_formed_two_addresses) as (_ & _ & Hnone).
    apply Hnone. reflexivity.
Defined.

Lemma set_unset_flags_the_target_nic_witness :
  get two_addresses (VInt 2) = Ok (mkObj (TopLevel 1) itf2_mgmt)
  ∧ ∃ m', set_unset two_addresses (VInt 2) "primary_mgt" VNone = Ok m'
          ∧ count_holders "primary_mgt" (_data m') = 1.
Proof.
  split; [reflexivity | ].
  destruct (set_unset_flags_the_target_nic two_addresses (VInt 2) "primary_mgt"
              (mkObj (TopLevel 1) itf2_mgmt) eq_refl)
    as (m' & Hm' & _ & _ & Hcount & _).
  - do 2 apply Exists_cons_tl. apply Exists_cons_hd. reflexivity.
  - exists m'. split; [exact Hm' | ]. rewrite Hcount. reflexivity.
Defined.

Lemma set_unset_none_unsets_everywhere_witness :
  ∃ m', set_unset two_addresses VNone "primary_mgt" VNone = Ok m'
        ∧ Forall (fun s => carries "primary_mgt" s = false) (all_subs (_data m')).
Proof.
  destruct (set_unset_none_unsets_everywhere two_addresses "primary_mgt")
    as (_ & m' & Hm' & _ & Hnone).
  - repeat constructor; intros H; vm_compute in H; discriminate.
  - repeat constructor; intros H; vm_compute in H; discriminate.
  - exists m'. split; assumption.
Defined.

Lemma set_auth_request_guards_witness :
  set_auth_request master_engine (VInt 1) VNone = Ok master_engine
  ∧ set_auth_request fw_cluster (VInt 1) VNone = Raise InterfaceNotFound.
Proof.
  split.
  - apply (proj1 (set_auth_request_guards master_engine (VInt 1) VNone)).
    reflexivity.
  - apply (proj2 (set_auth_request_guards fw_cluster (VInt 1) VNone));
      [reflexivity | reflexivity | ].
    right. eexists. split; [reflexivity | ].
    repeat constructor; intros H; vm_compute in H; discriminate.
Defined.

(** * Further properties *)

(** ** Roles seen from the interfaces *)

Lemma existsb_flat_map {A B : Type} (p : B → bool) (g : A → list B) (l : list A) :
  existsb p (flat_map g l) = existsb (fun x => existsb p (g x)) l.
Proof.
  induction l as [ | x l IH]; [reflexivity | ].
  simpl. rewrite existsb_app, IH. reflexivity.
Qed.

Lemma existsb_map {A B : Type} (p : B → bool) (f : A → B) (l : list A) :
  existsb p (map f l) = existsb (fun x => p (f x)) l.
Proof.
  induction l as [ | x l IH]; [reflexivity | ]. simpl. rewrite IH. reflexivity.
Qed.

Lemma existsb_ext_in {A : Type} (p q : A → bool) (l : list A) :
  Forall (fun x => p x = q x) l → existsb p l = existsb q l.
Proof.
  induction 1 as [ | x l Hx _ IH]; [reflexivity | ]. simpl. rewrite Hx, IH.
  reflexivity.
Qed.

Lemma existsb_all_false {A : Type} (p : A → bool) (l : list A) :
  existsb p l = false ↔ Forall (fun x => p x = false) l.
Proof.
  induction l as [ | x l IH]; simpl.
  - split; [constructor | reflexivity].
  - rewrite orb_false_iff, IH, Forall_cons. reflexivity.
Qed.

(** [get_boolean] looks at every fragment of the interface. *)
Lemma get_boolean_nested (name : string) (d : IData) :
  get_boolean name d = existsb (carries name) (nested_subs d).
Proof.
  unfold get_boolean, nested_subs. rewrite existsb_app, existsb_flat_map.
  reflexivity.
Qed.

Lemma carries_set_unset_sub (id attribute : string) (s : SubInterface) :
  carries attribute (set_unset_sub id attribute VNone VNone s)
  = if role_capable attribute s then on_nic id s else carries attribute s.
Proof.
  rewrite set_unset_sub_no_address.
  destruct (role_capable attribute s); [ | reflexivity].
  unfold carries. rewrite sub_getattr_setitem, decide_True by reflexivity.
  reflexivity.
Qed.

Lemma not_capable_carries (attribute : string) (s : SubInterface) :
  (isinstance_inline s = true → carries attribute s = false) →
  role_capable attribute s = false → carries attribute s = false.
Proof.
  unfold role_capable. intros Hinl H.
  destruct (isinstance_inline s); [auto | ]. simpl in H.
  apply negb_false_iff, bool_decide_eq_true_1 in H.
  unfold carries. rewrite H. reflexivity.
Qed.

(** X1.  After [set_unset(i, attribute)] without an address, on engine
    data whose inline fragments do not carry the role, the role
    property of an interface ([is_primary_mgt], [is_outgoing], ...:
    [get_boolean(attribute)]) is [True] exactly for the interfaces that
    hold a role-capable fragment on the nic of [i]; every interface
    keeps its position and its id. *)
Theorem set_unset_then_get_boolean
    (m m' : InterfaceModifier) (iid : PyVal) (attribute : string) :
  Forall (fun s => isinstance_inline s = true → carries attribute s = false)
         (all_subs (_data m)) →
  set_unset m iid attribute VNone = Ok m' →
  map interface_id (_data m') = map interface_id (_data m)
  ∧ map (get_boolean attribute) (_data m')
    = map (fun d => existsb (fun s => role_capable attribute s
                                      && on_nic (py_str iid) s)
                      (nested_subs d))
        (_data m).
Proof.
  intros Hinl Hset.
  assert (Hm' : m' = mkModifier (engine_type m)
            (map (map_subs (set_unset_sub (py_str iid) attribute VNone VNone))
               (_data m))).
  { revert Hset. unfold set_unset.
    destruct iid; simpl;
      try (destruct (get m _) as [o | err]; simpl; [ | discriminate]);
      intros [= <-]; reflexivity. }
  subst m'. simpl. clear Hset. unfold all_subs in Hinl.
  induction (_data m) as [ | d l IH]; [split; reflexivity | ].
  simpl in Hinl. apply Forall_app in Hinl as [Hd Hl].
  destruct (IH Hl) as [IH1 IH2]. simpl. split.
  - rewrite IH1. destruct d; reflexivity.
  - rewrite IH2. f_equal.
    rewrite get_boolean_nested, nested_subs_map_subs, existsb_map.
    apply existsb_ext_in.
    eapply Forall_impl; [exact Hd | ]. intros s Hs. simpl.
    rewrite carries_set_unset_sub.
    destruct (role_capable attribute s) eqn:Hc; [reflexivity | ].
    simpl. apply not_capable_carries; assumption.
Qed.

Lemma set_unset_then_get_boolean_witness :
  ∃ m', set_unset two_addresses (VInt 1) "primary_mgt" VNone = Ok m'
        ∧ map is_primary_mgt (_data m') = [true; false].
Proof.
  eexists. split; [reflexivity | ].
  refine (eq_trans (proj2 (set_unset_then_get_boolean two_addresses _ (VInt 1)
                             "primary_mgt" _ eq_refl)) _).
  - repeat constructor; intros H; vm_compute in H; discriminate.
  - reflexivity.
Defined.

(** ** Finding the holder of a role *)

Lemma find_mgmt_in_none (mgmt : string) (d : IData) :
  find_mgmt_in mgmt d = None ↔ get_boolean mgmt d = false.
Proof.
  unfold find_mgmt_in, get_boolean.
  induction (vlans_of d) as [ | v vl IH]; simpl.
  - destruct (existsb (carries mgmt) (interfaces d)); split; congruence.
  - destruct (existsb (carries mgmt) (interfaces v)); simpl.
    + split; discriminate.
    + exact IH.
Qed.

Lemma find_mgmt_in_some (mgmt : string) (d : IData) (v : PyVal) :
  find_mgmt_in mgmt d = Some v →
  (interface_id d = v ∧ existsb (carries mgmt) (interfaces d) = true)
  ∨ ∃ vlan, vlan ∈ vlans_of d ∧ interface_id vlan = v
            ∧ existsb (carries mgmt) (interfaces vlan) = true.
Proof.
  unfold find_mgmt_in.
  induction (vlans_of d) as [ | w vl IH]; simpl.
  - destruct (existsb (carries mgmt) (interfaces d)) eqn:E; [ | discriminate].
    intros [= <-]. left. auto.
  - destruct (existsb (carries mgmt) (interfaces w)) eqn:E.
    + intros [= <-]. right. exists w. split; [left | auto].
    + intros H. destruct (IH H) as [Hd | (vlan & Hin & Hv)]; [left; exact Hd | ].
      right. exists vlan. split; [right; exact Hin | exact Hv].
Qed.

Lemma find_mgmt_loop_none (mgmt : string) (l : list IData) :
  Forall (fun d => get_boolean mgmt d = false) l → find_mgmt_loop mgmt l = VNone.
Proof.
  induction 1 as [ | d l Hd _ IH]; [reflexivity | ].
  simpl. apply find_mgmt_in_none in Hd. rewrite Hd. exact IH.
Qed.

(** X2.  [find_mgmt_interface(mgmt)] agrees with the role properties of
    the interfaces: it returns [None] when no interface has
    [get_boolean(mgmt)], and an id it returns is that of an interface
    with a carrying fragment of its own, or of a VLAN of an interface
    with a carrying fragment nested in that VLAN. *)
Theorem find_mgmt_interface_sound (m : InterfaceModifier) (mgmt : string) :
  (Forall (fun d => get_boolean mgmt d = false) (_data m) →
   find_mgmt_interface m mgmt = VNone)
  ∧ (find_mgmt_interface m mgmt ≠ VNone →
     ∃ d, d ∈ _data m
          ∧ get_boolean mgmt d = true
          ∧ ((interface_id d = find_mgmt_interface m mgmt
              ∧ existsb (carries mgmt) (interfaces d) = true)
             ∨ ∃ vlan, vlan ∈ vlans_of d
                       ∧ interface_id vlan = find_mgmt_interface m mgmt
                       ∧ existsb (carries mgmt) (interfaces vlan) = true)).
Proof.
  unfold find_mgmt_interface. split.
  - apply find_mgmt_loop_none.
  - induction (_data m) as [ | d l IH]; simpl; [congruence | ].
    destruct (find_mgmt_in mgmt d) as [v | ] eqn:E.
    + intros _. exists d. split; [left | ]. split.
      * destruct (get_boolean mgmt d) eqn:G; [reflexivity | ].
        apply find_mgmt_in_none in G. congruence.
      * apply find_mgmt_in_some. exact E.
    + intros H. destruct (IH H) as (d0 & Hin & Hrest).
      exists d0. split; [right; exact Hin | exact Hrest].
Qed.

Lemma find_mgmt_interface_sound_witness :
  find_mgmt_interface two_addresses "primary_mgt" = VStr "2"
  ∧ ∃ d, d ∈ _data two_addresses ∧ get_boolean "primary_mgt" d = true.
Proof.
  split; [reflexivity | ].
  destruct (proj2 (find_mgmt_interface_sound two_addresses "primary_mgt"))
    as (d & Hin & Hb & _).
  - discriminate.
  - exists d. split; assumption.
Defined.

(** X3.  Unsetting a role everywhere and asking for its holder: after
    [set_backup_mgt(None)] (and [set_unset(None, attribute)] for any
    role) on engine data with no nic id ["None"] and no inline fragment
    carrying the role, [find_mgmt_interface(attribute)] returns [None]
    and no interface has the role property. *)
Theorem set_unset_none_then_find
    (m m' : InterfaceModifier) (attribute : string) :
  Forall (fun s => sub_getattr s "nicid" ≠ VStr "None") (all_subs (_data m)) →
  Forall (fun s => isinstance_inline s = true → carries attribute s = false)
         (all_subs (_data m)) →
  set_unset m VNone attribute VNone = Ok m' →
  find_mgmt_interface m' attribute = VNone
  ∧ Forall (fun d => get_boolean attribute d = false) (_data m').
Proof.
  intros Hnic Hinl Hset.
  assert (Hall : Forall (fun d => get_boolean attribute d = false) (_data m')).
  { rewrite set_unset_no_address in Hset by (left; reflexivity).
    injection Hset as <-. simpl. unfold all_subs in Hnic, Hinl.
    induction (_data m) as [ | d l IH]; [constructor | ].
    simpl in Hnic, Hinl.
    apply Forall_app in Hnic as [Hn Hnic]. apply Forall_app in Hinl as [Hi Hinl].
    simpl. constructor; [ | exact (IH Hnic Hinl)].
    rewrite get_boolean_nested, nested_subs_map_subs, existsb_map.
    apply existsb_all_false.
    induction (nested_subs d) as [ | s ss IHs]; [constructor | ].
    apply Forall_cons in Hn as [Hs Hn]. apply Forall_cons in Hi as [Hsi Hi].
    constructor; [ | exact (IHs Hn Hi)].
    exact (proj2 (carries_set_unset_none attribute s Hs Hsi)). }
  split; [ | exact Hall].
  apply find_mgmt_loop_none. exact Hall.
Qed.

Lemma set_unset_none_then_find_witness :
  ∃ m', set_unset two_addresses VNone "primary_mgt" VNone = Ok m'
        ∧ find_mgmt_interface m' "primary_mgt" = VNone.
Proof.
  eexists. split; [reflexivity | ].
  refine (proj1 (set_unset_none_then_find two_addresses _ "primary_mgt" _ _ eq_refl)).
  - repeat constructor; intros H; vm_compute in H; discriminate.
  - repeat constructor; intros H; vm_compute in H; discriminate.
Defined.

(** ** What the role setters leave alone *)

Lemma set_unset_sub_typeof id a addr tn s :
  typeof (set_unset_sub id a addr tn s) = typeof s.
Proof.
  unfold set_unset_sub.
  repeat match goal with |- context [if ?b then _ else _] => destruct b end;
    reflexivity.
Qed.

Lemma set_unset_sub_other id a addr tn s k :
  k ≠ a → sub_getattr (set_unset_sub id a addr tn s) k = sub_getattr s k.
Proof.
  intros Hk. unfold set_unset_sub.
  repeat match goal with |- context [if ?b then _ else _] => destruct b end;
    try reflexivity;
    rewrite sub_getattr_setitem, decide_False by congruence; reflexivity.
Qed.

Lemma set_unset_ok_form m iid a addr m' :
  set_unset m iid a addr = Ok m' →
  ∃ tn, m' = mkModifier (engine_type m)
               (map (map_subs (set_unset_sub (py_str iid) a addr tn)) (_data m)).
Proof.
  unfold set_unset. intros H.
  destruct (match iid with VNone => Ok None | _ => o ← get m iid; Ok (Some o) end)
    as [interface | err]; [ | discriminate].
  simpl in H.
  match type of H with (?r ≫= _) = _ => destruct r as [tn | err] end;
    [ | discriminate].
  simpl in H. injection H as <-. eauto.
Qed.

Lemma ids_of_map_subs f d : ids_of (map_subs f d) = ids_of d.
Proof.
  unfold ids_of, map_subs, vlans_of. simpl. f_equal.
  destruct (vlanInterfaces d) as [vl | ]; [ | reflexivity]. simpl.
  rewrite map_map. reflexivity.
Qed.

Lemma map_map_subs_proj {B : Type} (g : SubInterface → B)
    (f : SubInterface → SubInterface) (l : list IData) :
  (∀ s, g (f s) = g s) →
  map g (all_subs (map (map_subs f) l)) = map g (all_subs l).
Proof.
  intros Hg. rewrite all_subs_map_subs, map_map. apply map_ext. exact Hg.
Qed.

(** X4.  [set_unset] only writes the attribute it is given: when it
    succeeds (with or without an address), the engine type, the ids of
    all interfaces and VLANs, the variant of every fragment and the
    value of every other attribute of every fragment are as before. *)
Theorem set_unset_frame
    (m m' : InterfaceModifier) (iid address : PyVal) (attribute : string) :
  set_unset m iid attribute address = Ok m' →
  engine_type m' = engine_type m
  ∧ map ids_of (_data m') = map ids_of (_data m)
  ∧ map typeof (all_subs (_data m')) = map typeof (all_subs (_data m))
  ∧ ∀ k, k ≠ attribute →
      map (fun s => sub_getattr s k) (all_subs (_data m'))
      = map (fun s => sub_getattr s k) (all_subs (_data m)).
Proof.
  intros H. apply set_unset_ok_form in H as [tn ->]. simpl.
  split; [reflexivity | ]. split; [ | split].
  - rewrite map_map. apply map_ext. intros d. apply ids_of_map_subs.
  - apply map_map_subs_proj. intros s. apply set_unset_sub_typeof.
  - intros k Hk. apply (map_map_subs_proj (fun s => sub_getattr s k)).
    intros s. apply set_unset_sub_other. exact Hk.
Qed.

Lemma set_unset_frame_witness :
  ∃ m', set_unset two_addresses (VInt 1) "primary_mgt" VNone = Ok m'
        ∧ map (fun s => sub_getattr s "address") (all_subs (_data m'))
          = [VStr "10.0.0.1"; VStr "10.0.1.1"; VStr "10.0.2.1"].
Proof.
  eexists. split; [reflexivity | ].
  destruct (set_unset_frame two_addresses _ (VInt 1) VNone "primary_mgt" eq_refl)
    as (_ & _ & _ & Hk).
  rewrite (Hk "address") by discriminate. reflexivity.
Defined.

Lemma map_alter_inv {A B : Type} (p : A → B) (h : A → A) (i : nat) (l : list A) :
  (∀ x, p (h x) = p x) → map p (alter h i l) = map p l.
Proof.
  intros Hp. revert i. induction l as [ | x l IH]; intros i; [reflexivity | ].
  destruct i as [ | i]; simpl; [rewrite Hp; reflexivity | f_equal; apply IH].
Qed.

Lemma flat_map_alter_inv {A B : Type} (p : A → list B) (h : A → A) (i : nat)
    (l : list A) :
  (∀ x, p (h x) = p x) → flat_map p (alter h i l) = flat_map p l.
Proof.
  intros Hp. revert i. induction l as [ | x l IH]; intros i; [reflexivity | ].
  destruct i as [ | i]; simpl; [rewrite Hp; reflexivity | f_equal; apply IH].
Qed.

Lemma map_flat_map {A B C : Type} (g : B → C) (p : A → list B) (l : list A) :
  map g (flat_map p l) = flat_map (fun x => map g (p x)) l.
Proof.
  induction l as [ | x l IH]; [reflexivity | ].
  simpl. rewrite map_app, IH. reflexivity.
Qed.

Lemma ids_of_map_own_subs f r l :
  map ids_of (map_own_subs f r l) = map ids_of l.
Proof.
  destruct r as [i | i j]; simpl; apply map_alter_inv; intros d.
  - destruct d; reflexivity.
  - unfold ids_of, vlans_of. simpl. f_equal.
    destruct (vlanInterfaces d) as [vl | ]; [ | reflexivity]. simpl.
    apply map_alter_inv. intros v. destruct v; reflexivity.
Qed.

Lemma all_subs_map_own_subs_proj {B : Type} (g : SubInterface → B)
    (f : SubInterface → SubInterface) (r : ItfRef) (l : list IData) :
  (∀ s, g (f s) = g s) →
  map g (all_subs (map_own_subs f r l)) = map g (all_subs l).
Proof.
  intros Hg. unfold all_subs. rewrite !map_flat_map.
  assert (Hmi : ∀ v, map g (interfaces (map_interfaces f v)) = map g (interfaces v)).
  { intros v. simpl. rewrite map_map. apply map_ext. exact Hg. }
  destruct r as [i | i j]; simpl; apply flat_map_alter_inv; intros d.
  - unfold nested_subs, vlans_of. rewrite !map_app. simpl.
    f_equal. apply Hmi.
  - unfold nested_subs, vlans_of. rewrite !map_app. simpl. f_equal.
    destruct (vlanInterfaces d) as [vl | ]; [ | reflexivity]. simpl.
    rewrite !map_flat_map. apply flat_map_alter_inv. exact Hmi.
Qed.

Lemma set_auth_request_ok_form m iid address m' :
  set_auth_request m iid address = Ok m' →
  m' = m
  ∨ ∃ r1 r2 has_cvi,
      m' = mkModifier (engine_type m)
             (map_own_subs (set_auth_request_sub has_cvi address) r2
                (map_own_subs unset_auth_request r1 (_data m))).
Proof.
  unfold set_auth_request.
  destruct (existsb _ _); [intros [= <-]; left; reflexivity | ].
  destruct (get m iid) as [interface | err]; [ | discriminate]. simpl.
  destruct (contains "cluster" (engine_type m)
            && negb (existsb isinstance_cvi (interfaces (obj_data interface))));
    [discriminate | ]. simpl.
  destruct (get m (find_mgmt_interface m "auth_request")) as [current | err];
    [ | discriminate]. simpl.
  intros [= <-]. right. eauto.
Qed.

Lemma auth_request_subs_typeof has_cvi address s :
  typeof (unset_auth_request s) = typeof s
  ∧ typeof (set_auth_request_sub has_cvi address s) = typeof s.
Proof.
  unfold unset_auth_request, set_auth_request_sub, bind_auth_request.
  split;
    repeat match goal with |- context [if ?b then _ else _] => destruct b end;
    reflexivity.
Qed.

Lemma auth_request_subs_other has_cvi address s k :
  k ≠ "auth_request" →
  sub_getattr (unset_auth_request s) k = sub_getattr s k
  ∧ sub_getattr (set_auth_request_sub has_cvi address s) k = sub_getattr s k.
Proof.
  intros Hk.
  unfold unset_auth_request, set_auth_request_sub, bind_auth_request.
  split;
    repeat match goal with |- context [if ?b then _ else _] => destruct b end;
    try reflexivity;
    rewrite sub_getattr_setitem, decide_False by congruence; reflexivity.
Qed.

Lemma set_auth_request_keeps_attr m m' iid address k :
  set_auth_request m iid address = Ok m' →
  k ≠ "auth_request" →
  map (fun s => sub_getattr s k) (all_subs (_data m'))
  = map (fun s => sub_getattr s k) (all_subs (_data m)).
Proof.
  intros H Hk. apply set_auth_request_ok_form in H
    as [-> | (r1 & r2 & has_cvi & ->)]; [reflexivity | ].
  simpl.
  rewrite !(all_subs_map_own_subs_proj (fun s => sub_getattr s k));
    [reflexivity | | ];
    intros s; apply (auth_request_subs_other has_cvi address s k Hk).
Qed.

(** X5.  [set_auth_request] only writes [auth_request]: when it
    succeeds, the engine type, the ids of all interfaces and VLANs, the
    variant of every fragment and the value of every other attribute of
    every fragment are as before. *)
Theorem set_auth_request_frame
    (m m' : InterfaceModifier) (iid address : PyVal) :
  set_auth_request m iid address = Ok m' →
  engine_type m' = engine_type m
  ∧ map ids_of (_data m') = map ids_of (_data m)
  ∧ map typeof (all_subs (_data m')) = map typeof (all_subs (_data m))
  ∧ ∀ k, k ≠ "auth_request" →
      map (fun s => sub_getattr s k) (all_subs (_data m'))
      = map (fun s => sub_getattr s k) (all_subs (_data m)).
Proof.
  intros H. split; [ | split; [ | split]].
  - apply set_auth_request_ok_form in H
      as [-> | (r1 & r2 & has_cvi & ->)]; reflexivity.
  - apply set_auth_request_ok_form in H
      as [-> | (r1 & r2 & has_cvi & ->)]; [reflexivity | ].
    simpl. rewrite !ids_of_map_own_subs. reflexivity.
  - apply set_auth_request_ok_form in H
      as [-> | (r1 & r2 & has_cvi & ->)]; [reflexivity | ].
    simpl. rewrite !all_subs_map_own_subs_proj; [reflexivity | | ];
      intros s; apply (auth_request_subs_typeof has_cvi address s).
  - intros k Hk. exact (set_auth_request_keeps_attr m m' iid address k H Hk).
Qed.

Lemma set_auth_request_frame_witness :
  ∃ m', set_auth_request single_fw_two (VInt 1) VNone = Ok m'
        ∧ map (fun s => sub_getattr s "auth_request") (all_subs (_data m'))
          = [VBool true; VBool false]
        ∧ map (fun s => sub_getattr s "primary_mgt") (all_subs (_data m'))
          = [VBool false; VBool true].
Proof.
  eexists. split; [reflexivity | ]. split; [reflexivity | ].
  destruct (set_auth_request_frame single_fw_two _ (VInt 1) VNone eq_refl)
    as (_ & _ & _ & Hk).
  rewrite (Hk "primary_mgt") by discriminate. reflexivity.
Defined.

(** ** The auth request interface needs a current holder *)

Lemma no_carrier_no_boolean (mgmt : string) (l : list IData) :
  Forall (fun s => carries mgmt s = false) (all_subs l) →
  Forall (fun d => get_boolean mgmt d = false) l.
Proof.
  unfold all_subs. induction l as [ | d l IH]; intros H; [constructor | ].
  simpl in H. apply Forall_app in H as [Hd Hl].
  constructor; [ | exact (IH Hl)].
  rewrite get_boolean_nested. apply existsb_all_false. exact Hd.
Qed.

(** X6.  [set_auth_request] moves the role from its current holder: on
    an engine that is not a master, layer 2 or IPS engine, when no
    fragment carries [auth_request] (and no interface is designated by
    the text ["None"], which is what the lookup of the missing holder
    asks for), it raises [InterfaceNotFound] even for a target that
    exists. *)
Theorem set_auth_request_without_holder
    (m : InterfaceModifier) (iid address : PyVal) (o : ItfObj) :
  no_auth_request_type (engine_type m) = false →
  Forall (fun s => carries "auth_request" s = false) (all_subs (_data m)) →
  get m VNone = Raise InterfaceNotFound →
  get m iid = Ok o →
  set_auth_request m iid address = Raise InterfaceNotFound.
Proof.
  unfold no_auth_request_type. intros Ht Hnone Hget Ho.
  unfold set_auth_request. rewrite Ht, Ho. simpl.
  destruct (contains "cluster" (engine_type m)
            && negb (existsb isinstance_cvi (interfaces (obj_data o))));
    [reflexivity | ]. simpl.
  unfold find_mgmt_interface.
  rewrite (find_mgmt_loop_none "auth_request" (_data m)
             (no_carrier_no_boolean _ _ Hnone)).
  rewrite Hget. reflexivity.
Qed.

Lemma set_auth_request_without_holder_witness :
  get two_addresses (VInt 1) = Ok (mkObj (TopLevel 0) itf1_two_addresses)
  ∧ set_auth_request two_addresses (VInt 1) VNone = Raise InterfaceNotFound.
Proof.
  split; [reflexivity | ].
  apply (set_auth_request_without_holder two_addresses (VInt 1) VNone
           (mkObj (TopLevel 0) itf1_two_addresses));
    try reflexivity.
  repeat constructor.
Defined.

(** ** Setting the primary management interface *)

Lemma set_unset_sub_ignores_target id a tn s :
  set_unset_sub id a VNone tn s = set_unset_sub id a VNone VNone s.
Proof. reflexivity. Qed.

Lemma set_unset_no_address_subs m m' iid a :
  set_unset m iid a VNone = Ok m' →
  engine_type m' = engine_type m
  ∧ all_subs (_data m')
    = map (set_unset_sub (py_str iid) a VNone VNone) (all_subs (_data m)).
Proof.
  intros H. apply set_unset_ok_form in H as [tn ->]. simpl.
  split; [reflexivity | ]. rewrite all_subs_map_subs. reflexivity.
Qed.

Lemma set_unset_sub_attr id a s :
  sub_getattr (set_unset_sub id a VNone VNone s) a
  = if role_capable a s then VBool (on_nic id s) else sub_getattr s a.
Proof.
  rewrite set_unset_sub_no_address.
  destruct (role_capable a s); [ | reflexivity].
  rewrite sub_getattr_setitem, decide_True by reflexivity. reflexivity.
Qed.

Lemma role_capable_ext a s s' :
  typeof s' = typeof s → sub_getattr s' a = sub_getattr s a →
  role_capable a s' = role_capable a s.
Proof.
  intros Ht Ha. unfold role_capable, isinstance_inline. rewrite Ht, Ha.
  reflexivity.
Qed.

(** X7.  [set_primary_mgt(i)] without an address, when it succeeds:
    [outgoing] is [True] on the role-capable fragments on the nic of [i]
    and [False] on the other role-capable fragments; so is [primary_mgt],
    except on a virtual firewall, where [primary_mgt] is left as it is;
    and on a master, layer 2 or IPS engine [auth_request] is left as it
    is. *)
Theorem set_primary_mgt_moves_roles
    (m m' : InterfaceModifier) (iid auth_request : PyVal) :
  set_primary_mgt m iid auth_request VNone = Ok m' →
  let moved attribute :=
    map (fun s => sub_getattr s attribute) (all_subs (_data m'))
    = map (fun s => if role_capable attribute s
                    then VBool (on_nic (py_str iid) s)
                    else sub_getattr s attribute)
        (all_subs (_data m)) in
  let kept attribute :=
    map (fun s => sub_getattr s attribute) (all_subs (_data m'))
    = map (fun s => sub_getattr s attribute) (all_subs (_data m)) in
  moved "outgoing"
  ∧ (if String.eqb (engine_type m) "virtual_fw"
     then kept "primary_mgt" else moved "primary_mgt")
  ∧ (no_auth_request_type (engine_type m) = true → kept "auth_request").
Proof.
  intros H. cbv zeta. unfold set_primary_mgt in H. cbv zeta in H.
  destruct (String.eqb (engine_type m) "virtual_fw") eqn:Ev; simpl in H.
  - (* virtual firewall: outgoing only *)
    destruct (set_unset m iid "outgoing" VNone) as [m1 | err] eqn:H1;
      [ | discriminate]. simpl in H.
    destruct (set_unset_no_address_subs _ _ _ _ H1) as [Et E1].
    assert (Ha : ∀ k, k ≠ "auth_request" →
              map (fun s => sub_getattr s k) (all_subs (_data m'))
              = map (fun s => sub_getattr s k) (all_subs (_data m1))).
    { intros k Hk. destruct auth_request;
        exact (set_auth_request_keeps_attr _ _ _ _ k H Hk). }
    split; [ | split].
    + rewrite (Ha "outgoing") by discriminate. rewrite E1, map_map.
      apply map_ext. intros s. apply set_unset_sub_attr.
    + rewrite (Ha "primary_mgt") by discriminate. rewrite E1, map_map.
      apply map_ext. intros s. apply set_unset_sub_other. discriminate.
    + intros Hno. unfold set_auth_request, no_auth_request_type in *.
      rewrite Et in H. unfold no_auth_request_type in Hno.
      destruct auth_request; rewrite Hno in H; injection H as <-;
        rewrite E1, map_map; apply map_ext; intros frag;
        apply set_unset_sub_other; discriminate.
  - destruct (set_unset m iid "primary_mgt" VNone) as [m1 | err] eqn:H1;
      [ | discriminate]. simpl in H.
    destruct (set_unset m1 iid "outgoing" VNone) as [m2 | err] eqn:H2;
      [ | discriminate]. simpl in H.
    destruct (set_unset_no_address_subs _ _ _ _ H1) as [Et1 E1].
    destruct (set_unset_no_address_subs _ _ _ _ H2) as [Et2 E2].
    assert (Ha : ∀ k, k ≠ "auth_request" →
              map (fun s => sub_getattr s k) (all_subs (_data m'))
              = map (fun s => sub_getattr s k) (all_subs (_data m2))).
    { intros k Hk. destruct auth_request;
        exact (set_auth_request_keeps_attr _ _ _ _ k H Hk). }
    split; [ | split].
    + rewrite (Ha "outgoing") by discriminate. rewrite E2, E1, !map_map.
      apply map_ext. intros s. rewrite set_unset_sub_attr.
      rewrite (role_capable_ext "outgoing" s
                 (set_unset_sub (py_str iid) "primary_mgt" VNone VNone s)).
      * unfold on_nic. rewrite !set_unset_sub_other by discriminate.
        reflexivity.
      * apply set_unset_sub_typeof.
      * apply set_unset_sub_other. discriminate.
    + rewrite (Ha "primary_mgt") by discriminate. rewrite E2, E1, !map_map.
      apply map_ext. intros s. rewrite set_unset_sub_other by discriminate.
      apply set_unset_sub_attr.
    + intros Hno. unfold set_auth_request in H.
      rewrite Et2, Et1 in H. unfold no_auth_request_type in Hno.
      destruct auth_request; rewrite Hno in H; injection H as <-;
        rewrite E2, E1, !map_map; apply map_ext; intros frag;
        rewrite !set_unset_sub_other by discriminate; reflexivity.
Qed.

Lemma set_primary_mgt_moves_roles_witness :
  ∃ m', set_primary_mgt single_fw_two (VInt 1) VNone VNone = Ok m'
        ∧ map (fun s => sub_getattr s "outgoing") (all_subs (_data m'))
          = [VBool true; VBool false]
        ∧ map (fun s => sub_getattr s "primary_mgt") (all_subs (_data m'))
          = [VBool true; VBool false].
Proof.
  eexists. split; [reflexivity | ].
  destruct (set_primary_mgt_moves_roles single_fw_two _ (VInt 1) VNone eq_refl)
    as (Hout & Hpm & _).
  split; [exact (eq_trans Hout eq_refl) | exact (eq_trans Hpm eq_refl)].
Defined.

(** ** VLAN fragments of the builder *)

Lemma add_to_vlan_none (vlan_str : string) (intf : SubInterface) (vl : list IData) :
  Forall (fun v => interface_id v ≠ VStr vlan_str) vl →
  add_to_vlan vlan_str intf vl = None.
Proof.
  induction 1 as [ | v vl Hv _ IH]; [reflexivity | ].
  simpl. destruct (py_eq_str (interface_id v) vlan_str) eqn:E.
  - apply py_eq_str_true in E. contradiction.
  - rewrite IH. reflexivity.
Qed.

Lemma filter_drop_last_vlan (vlan_str : string) (vl : list IData) (vlan : IData) :
  Forall (fun v => interface_id v ≠ VStr vlan_str) vl →
  interface_id vlan = VStr vlan_str →
  List.filter (fun v => negb (py_eq_str (interface_id v) vlan_str)) (vl ++ [vlan])
  = vl.
Proof.
  intros Hvl Hv. rewrite List.filter_app. simpl.
  rewrite (proj2 (py_eq_str_true _ _) Hv). simpl. rewrite app_nil_r.
  apply filter_all_kept. eapply Forall_impl; [exact Hvl | ].
  intros v Hne. simpl in *.
  destruct (py_eq_str (interface_id v) vlan_str) eqn:E; [ | reflexivity].
  apply py_eq_str_true in E. contradiction.
Qed.

Lemma append_then_remove (b vlan : IData) (vl : list IData) (vid : PyVal) :
  vlanInterfaces b = Some vl →
  Forall (fun v => interface_id v ≠ VStr (dotted (interface_id b) vid)) vl →
  interface_id vlan = VStr (dotted (interface_id b) vid) →
  (b' ← append_vlan vlan b; builder_remove_vlan b' vid) = Ok b.
Proof.
  intros Hvl Hfresh Hid. unfold append_vlan. rewrite Hvl. simpl.
  unfold builder_remove_vlan. simpl.
  rewrite (filter_drop_last_vlan _ vl vlan Hfresh Hid).
  destruct b; simpl in *; subst; reflexivity.
Qed.

(** X8.  Adding a VLAN to a draft and removing it again: when the draft
    has no VLAN fragment with the composite id [<interface_id>.<v>],
    [remove_vlan(v)] after [add_vlan_only], [add_ndi_to_vlan] (so
    [add_sni_to_vlan]) or [add_cvi_to_vlan] for the VLAN [v] gives the
    draft back as it was. *)
Theorem builder_add_then_remove_vlan
    (zone_helper : PyVal → PyVal) (b : IData) (vl : list IData)
    (address network_value vid nodeid vmap vres zref cmt : PyVal) (cls : SubType)
    (kw : list (string * PyVal)) :
  vlanInterfaces b = Some vl →
  Forall (fun v => interface_id v ≠ VStr (dotted (interface_id b) vid)) vl →
  (b' ← add_vlan_only zone_helper b vid vmap vres zref cmt;
   builder_remove_vlan b' vid) = Ok b
  ∧ (b' ← add_ndi_to_vlan zone_helper b address network_value vid nodeid zref
            cmt cls kw;
     builder_remove_vlan b' vid) = Ok b
  ∧ (b' ← add_cvi_to_vlan zone_helper b address network_value vid zref cmt kw;
     builder_remove_vlan b' vid) = Ok b.
Proof.
  intros Hvl Hfresh. split; [ | split].
  - unfold add_vlan_only. apply (append_then_remove b _ vl vid Hvl Hfresh).
    reflexivity.
  - unfold add_ndi_to_vlan. rewrite Hvl.
    rewrite (add_to_vlan_none _ _ vl Hfresh).
    apply (append_then_remove b _ vl vid Hvl Hfresh). reflexivity.
  - unfold add_cvi_to_vlan. apply (append_then_remove b _ vl vid Hvl Hfresh).
    reflexivity.
Qed.

Lemma builder_add_then_remove_vlan_witness :
  (b' ← add_ndi_to_vlan (fun zone => zone) itf12 (VStr "15.15.15.1")
          (VStr "15.15.15.0/24") (VInt 15) (VInt 1) VNone VNone SingleNode [];
   builder_remove_vlan b' (VInt 15)) = Ok itf12.
Proof.
  refine (proj1 (proj2 (builder_add_then_remove_vlan (fun zone => zone) itf12 _
                          (VStr "15.15.15.1") (VStr "15.15.15.0/24") (VInt 15)
                          (VInt 1) VNone VNone VNone VNone SingleNode []
                          eq_refl _))).
  repeat constructor. discriminate.
Defined.

Lemma add_to_vlan_ids (vlan_str : string) (intf : SubInterface) (vl vl' : list IData) :
  add_to_vlan vlan_str intf vl = Some vl' →
  map interface_id vl' = map interface_id vl
  ∧ flat_map interfaces vl' ≡ₚ intf :: flat_map interfaces vl
  ∧ Exists (fun v => interface_id v = VStr vlan_str) vl.
Proof.
  revert vl'. induction vl as [ | v vl IH]; intros vl'; simpl; [discriminate | ].
  destruct (py_eq_str (interface_id v) vlan_str) eqn:E.
  - intros [= <-]. simpl. split; [reflexivity | ]. split.
    + rewrite <- app_assoc. simpl. symmetry. apply Permutation_middle.
    + left. apply py_eq_str_true. exact E.
  - destruct (add_to_vlan vlan_str intf vl) as [vl0 | ]; [ | discriminate].
    simpl. intros [= <-]. destruct (IH vl0 eq_refl) as (I1 & I2 & I3).
    simpl. split; [rewrite I1; reflexivity | ]. split.
    + rewrite I2. symmetry. apply Permutation_middle.
    + right. exact I3.
Qed.

(** The search loop stops at the first VLAN fragment with the id. *)
Lemma add_to_vlan_first (vlan_str : string) (intf : SubInterface)
    (vl : list IData) (j : nat) (v : IData) :
  vl !! j = Some v →
  interface_id v = VStr vlan_str →
  (∀ j' v', (j' < j)%nat → vl !! j' = Some v' → interface_id v' ≠ VStr vlan_str) →
  add_to_vlan vlan_str intf vl
  = Some (<[j := set_interfaces (interfaces v ++ [intf]) v]> vl).
Proof.
  revert j. induction vl as [ | a vl IH]; intros j Hj Hid Hfirst;
    [discriminate | ].
  destruct j as [ | j]; simpl in *.
  - injection Hj as ->. rewrite (proj2 (py_eq_str_true _ _) Hid). reflexivity.
  - destruct (py_eq_str (interface_id a) vlan_str) eqn:E.
    + apply py_eq_str_true in E.
      exfalso. apply (Hfirst 0%nat a); [lia | reflexivity | exact E].
    + rewrite (IH j Hj Hid); [reflexivity | ].
      intros j' v' Hlt Hv'. apply (Hfirst (S j') v'); [lia | exact Hv'].
Qed.

(** X9.  [add_ndi_to_vlan] merges and [add_cvi_to_vlan] does not.  On a
    draft with a VLAN list, [add_ndi_to_vlan] for the VLAN [v] adds
    exactly one nested fragment, the one it creates, and leaves the
    draft's own fragments alone.  When a VLAN fragment carries the
    composite id [<interface_id>.<v>], the new fragment is appended to
    the sub-interfaces of the first such VLAN fragment, in place, and
    nothing else of the VLAN list changes.  When none does, a new last
    VLAN fragment with that id is appended, holding the new fragment
    alone.  [add_cvi_to_vlan] always appends a VLAN fragment with that
    id holding the one cluster virtual fragment, also when the VLAN
    exists.  On a draft without a VLAN list (a tunnel interface) the
    three VLAN methods raise [AttributeError]. *)
Theorem builder_vlan_merge_or_append
    (zone_helper : PyVal → PyVal) (b : IData)
    (address network_value vid nodeid vmap vres zref cmt : PyVal) (cls : SubType)
    (kw : list (string * PyVal)) :
  let vlan_str := dotted (interface_id b) vid in
  let intf := create_node cls (interface_id b) address network_value nodeid
                (("nicid", VStr vlan_str) :: kw) in
  (∀ vl, vlanInterfaces b = Some vl →
     (* the VLAN exists: merged into the first fragment with the id *)
     (∀ j v,
        vl !! j = Some v →
        interface_id v = VStr vlan_str →
        (∀ j' v', (j' < j)%nat → vl !! j' = Some v' →
                  interface_id v' ≠ VStr vlan_str) →
        add_ndi_to_vlan zone_helper b address network_value vid nodeid zref cmt
          cls kw
        = Ok (set_vlanInterfaces
                (Some (<[j := set_interfaces (interfaces v ++ [intf]) v]> vl)) b))
     (* the VLAN does not exist: a new last fragment *)
     ∧ (Forall (fun v => interface_id v ≠ VStr vlan_str) vl →
        ∃ vlan,
          add_ndi_to_vlan zone_helper b address network_value vid nodeid zref
            cmt cls kw
          = Ok (set_vlanInterfaces (Some (vl ++ [vlan])) b)
          ∧ interface_id vlan = VStr vlan_str
          ∧ interfaces vlan = [intf]
          ∧ vlanInterfaces vlan = None)
     (* in both cases *)
     ∧ (∃ b' vl',
        add_ndi_to_vlan zone_helper b address network_value vid nodeid zref cmt
          cls kw = Ok b'
        ∧ vlanInterfaces b' = Some vl'
        ∧ interfaces b' = interfaces b
        ∧ interface_id b' = interface_id b
        ∧ map interface_id vl'
          = map interface_id vl
            ++ (if existsb (fun v => py_eq_str (interface_id v) vlan_str) vl
                then [] else [VStr vlan_str])
        ∧ flat_map interfaces vl' ≡ₚ intf :: flat_map interfaces vl)
     (* the cluster virtual interface *)
     ∧ (∃ vlan,
          add_cvi_to_vlan zone_helper b address network_value vid zref cmt kw
          = Ok (set_vlanInterfaces (Some (vl ++ [vlan])) b)
          ∧ interface_id vlan = VStr vlan_str
          ∧ interfaces vlan
            = [create_cvi (interface_id b) address network_value
                 (("nicid", VStr vlan_str) :: kw)]
          ∧ vlanInterfaces vlan = None))
  ∧ (vlanInterfaces b = None →
     add_ndi_to_vlan zone_helper b address network_value vid nodeid zref cmt
       cls kw = Raise AttributeError
     ∧ add_cvi_to_vlan zone_helper b address network_value vid zref cmt kw
       = Raise AttributeError
     ∧ add_vlan_only zone_helper b vid vmap vres zref cmt = Raise AttributeError).
Proof.
  intros vlan_str intf. split.
  - intros vl Hvl. split; [ | split; [ | split]].
    + intros j v Hj Hid Hfirst.
      unfold add_ndi_to_vlan. rewrite Hvl. fold vlan_str. fold intf.
      rewrite (add_to_vlan_first vlan_str intf vl j v Hj Hid Hfirst).
      reflexivity.
    + intros Hnone.
      unfold add_ndi_to_vlan. rewrite Hvl. fold vlan_str. fold intf.
      rewrite (add_to_vlan_none vlan_str intf vl Hnone).
      unfold append_vlan. rewrite Hvl.
      eexists. split; [reflexivity | ].
      split; [reflexivity | ]. split; reflexivity.
    + unfold add_ndi_to_vlan. rewrite Hvl. fold vlan_str. fold intf.
      destruct (add_to_vlan vlan_str intf vl) as [vl' | ] eqn:E.
      * destruct (add_to_vlan_ids _ _ _ _ E) as (I1 & I2 & I3).
        do 2 eexists. split; [reflexivity | ]. simpl.
        split; [reflexivity | ]. split; [reflexivity | ].
        split; [reflexivity | ]. split; [ | exact I2].
        assert (Hex : existsb (fun v => py_eq_str (interface_id v) vlan_str) vl
                      = true).
        { clear -I3. induction I3 as [v vl Hv | v vl _ IH]; simpl.
          - rewrite (proj2 (py_eq_str_true _ _) Hv). reflexivity.
          - rewrite IH. apply orb_true_r. }
        rewrite Hex, app_nil_r. exact I1.
      * unfold append_vlan. rewrite Hvl.
        do 2 eexists. split; [reflexivity | ]. simpl.
        assert (Hex : existsb (fun v => py_eq_str (interface_id v) vlan_str) vl
                      = false).
        { clear -E. induction vl as [ | v vl IH]; [reflexivity | ].
          simpl in *. destruct (py_eq_str (interface_id v) vlan_str);
            [discriminate | ].
          simpl. apply IH.
          destruct (add_to_vlan vlan_str intf vl); [discriminate | reflexivity]. }
        rewrite Hex.
        split; [reflexivity | ]. split; [reflexivity | ].
        split; [reflexivity | ]. split.
        -- rewrite map_app. reflexivity.
        -- rewrite flat_map_app. simpl.
           symmetry. apply Permutation_cons_append.
    + unfold add_cvi_to_vlan, append_vlan. rewrite Hvl.
      eexists. split; [reflexivity | ].
      split; [reflexivity | ]. split; reflexivity.
  - intros Hnone. unfold add_ndi_to_vlan, add_cvi_to_vlan, add_vlan_only,
      append_vlan. rewrite Hnone.
    split; [reflexivity | ]. split; reflexivity.
Qed.

Lemma builder_vlan_merge_or_append_witness :
  itf12_vlans !! 0%nat = Some itf12_vlan14
  ∧ interface_id itf12_vlan14 = VStr (dotted (interface_id itf12) (VInt 14))
  ∧ add_ndi_to_vlan (fun zone => zone) itf12 (VStr "14.14.14.2")
      (VStr "14.14.14.0/24") (VInt 14) (VInt 1) VNone VNone SingleNode []
    = Ok (set_vlanInterfaces
            (Some (<[0%nat := set_interfaces
                       (interfaces itf12_vlan14
                        ++ [create_node SingleNode (interface_id itf12)
                              (VStr "14.14.14.2") (VStr "14.14.14.0/24") (VInt 1)
                              [("nicid", VStr "12.14")]])
                       itf12_vlan14]> itf12_vlans))
            itf12).
Proof.
  split; [reflexivity | ]. split; [reflexivity | ].
  refine (proj1 (proj1 (builder_vlan_merge_or_append (fun zone => zone) itf12
                   (VStr "14.14.14.2") (VStr "14.14.14.0/24") (VInt 14) (VInt 1)
                   VNone VNone VNone VNone SingleNode [])
                   itf12_vlans eq_refl)
            0%nat itf12_vlan14 eq_refl eq_refl _).
  intros j' v' Hlt. lia.
Defined.

(** ** Adding a layer 3 address *)

(** The two address adders append one fragment of their variant. *)
Lemma add_only_shape (b : IData) (address network_value : PyVal) (is_mgmt : bool)
    (kw : list (string * PyVal)) :
  (∃ s, add_sni_only b address network_value is_mgmt kw
        = set_interfaces (interfaces b ++ [s]) b
        ∧ typeof s = SingleNode)
  ∧ (∃ s, add_ndi_only b address network_value (VInt 1) is_mgmt kw
          = set_interfaces (interfaces b ++ [s]) b
          ∧ typeof s = Node).
Proof.
  split; eexists; (split; [reflexivity | ]);
    destruct is_mgmt; rewrite ?typeof_update; apply create_node_typeof.
Qed.

(** X10.  [PhysicalInterface.add_layer3_interface] updates or creates.
    When [get] finds the interface, one update request carries its body
    with exactly one fragment appended (a single node interface on a
    single firewall, a node interface otherwise); the zone is replaced
    only when a zone is given, the comment is always replaced by the
    argument, also by [None]; id and VLANs stay.  When [get] raises
    [InterfaceNotFound], one create request carries a body with the id,
    that one fragment and an empty VLAN list.  Any other failure of the
    lookup is raised and nothing is sent. *)
Theorem add_layer3_interface_updates_or_creates
    (zone_helper : PyVal → PyVal) (e : Engine)
    (iid address network_value zref cmt : PyVal) (is_mgmt : bool)
    (kw : list (string * PyVal)) (log : list Request) :
  let cls := if String.eqb (etype e) "single_fw" then SingleNode else Node in
  match get (byEngine e) iid with
  | Ok o =>
      ∃ body s,
        add_layer3_interface zone_helper e iid address network_value zref
          is_mgmt cmt kw log = Ok (body, log ++ [ReqUpdate body])
        ∧ interfaces body = interfaces (obj_data o) ++ [s]
        ∧ typeof s = cls
        ∧ interface_id body = interface_id (obj_data o)
        ∧ vlanInterfaces body = vlanInterfaces (obj_data o)
        ∧ comment body = cmt
        ∧ zone_ref body = (if truthy zref then zone_helper zref
                           else zone_ref (obj_data o))
  | Raise InterfaceNotFound =>
      ∃ body s,
        add_layer3_interface zone_helper e iid address network_value zref
          is_mgmt cmt kw log = Ok (body, log ++ [ReqCreate body])
        ∧ interfaces body = [s]
        ∧ typeof s = cls
        ∧ interface_id body = iid
        ∧ vlanInterfaces body = Some []
        ∧ comment body = cmt
        ∧ zone_ref body = (if truthy zref then zone_helper zref else VNone)
  | Raise err =>
      add_layer3_interface zone_helper e iid address network_value zref
        is_mgmt cmt kw log = Raise err
  end.
Proof.
  intros cls. subst cls. unfold add_layer3_interface, getBuilder.
  destruct (get (byEngine e) iid) as [o | err].
  - cbn -[add_sni_only add_ndi_only].
    destruct (String.eqb (etype e) "single_fw").
    + destruct (add_only_shape
                  (if truthy zref
                   then builder_set_zone zone_helper zref (obj_data o)
                   else obj_data o)
                  address network_value is_mgmt kw) as ((s & Hs & Ht) & _).
      rewrite Hs. exists (set_comment_raw cmt
                            (set_interfaces
                               (interfaces (if truthy zref
                                            then builder_set_zone zone_helper zref
                                                   (obj_data o)
                                            else obj_data o) ++ [s])
                               (if truthy zref
                                then builder_set_zone zone_helper zref (obj_data o)
                                else obj_data o))), s.
      destruct (truthy zref); repeat split; exact Ht.
    + destruct (add_only_shape
                  (if truthy zref
                   then builder_set_zone zone_helper zref (obj_data o)
                   else obj_data o)
                  address network_value is_mgmt kw) as (_ & (s & Hs & Ht)).
      rewrite Hs. exists (set_comment_raw cmt
                            (set_interfaces
                               (interfaces (if truthy zref
                                            then builder_set_zone zone_helper zref
                                                   (obj_data o)
                                            else obj_data o) ++ [s])
                               (if truthy zref
                                then builder_set_zone zone_helper zref (obj_data o)
                                else obj_data o))), s.
      destruct (truthy zref); repeat split; exact Ht.
  - destruct err; try reflexivity.
    cbn -[add_sni_only add_ndi_only].
    set (b0 := if truthy zref
               then builder_set_zone zone_helper zref
                      (set_interface_id iid (InterfaceBuilder_new false))
               else set_interface_id iid (InterfaceBuilder_new false)).
    destruct (String.eqb (etype e) "single_fw").
    + destruct (add_only_shape b0 address network_value is_mgmt kw)
        as ((s & Hs & Ht) & _).
      rewrite Hs.
      exists (set_comment_raw cmt (set_interfaces (interfaces b0 ++ [s]) b0)), s.
      subst b0. destruct (truthy zref); repeat split; exact Ht.
    + destruct (add_only_shape b0 address network_value is_mgmt kw)
        as (_ & (s & Hs & Ht)).
      rewrite Hs.
      exists (set_comment_raw cmt (set_interfaces (interfaces b0 ++ [s]) b0)), s.
      subst b0. destruct (truthy zref); repeat split; exact Ht.
Qed.

Lemma add_layer3_interface_updates_or_creates_witness :
  ∃ body s,
    add_layer3_interface (fun zone => zone) engine12 (VInt 12) (VStr "12.12.12.1")
      (VStr "12.12.12.0/24") VNone false VNone [] []
    = Ok (body, [] ++ [ReqUpdate body])
    ∧ interfaces body = interfaces itf12 ++ [s]
    ∧ typeof s = SingleNode.
Proof.
  pose proof (add_layer3_interface_updates_or_creates (fun zone => zone) engine12
                (VInt 12) (VStr "12.12.12.1") (VStr "12.12.12.0/24") VNone VNone
                false [] []) as H.
  cbv zeta in H.
  change (get (byEngine engine12) (VInt 12)) with (Ok (mkObj (TopLevel 0) itf12)) in H.
  destruct H as (body & s & Hb & Hi & Ht & _).
  exists body, s. repeat split; assumption.
Defined.

(** ** Applying an address change twice *)

Lemma address_differs_updated (address network_value : PyVal) (s : SubInterface) :
  address_differs address
    (sub_update [("address", address); ("network_value", network_value)] s)
  = false.
Proof.
  unfold address_differs, sub_update. simpl.
  rewrite !sub_getattr_setitem.
  rewrite decide_False by discriminate. rewrite decide_True by reflexivity.
  rewrite py_eq_refl. reflexivity.
Qed.

Lemma change_single_loop_spec (address network_value : PyVal)
    (l : list SubInterface) (o : PyVal) (c : bool) :
  ∃ l' o' c',
    change_single_loop address network_value l o c = (l', o', c')
    ∧ c' = c || existsb (address_differs address) l
    ∧ Forall (fun s => address_differs address s = false) l'
    ∧ (existsb (address_differs address) l = false → l' = l ∧ o' = o).
Proof.
  revert o c. induction l as [ | s l IH]; intros o c.
  - exists [], o, c. simpl. rewrite orb_false_r. repeat split. constructor.
  - simpl. fold (address_differs address s).
    destruct (address_differs address s) eqn:E.
    + destruct (IH (sub_getattr s "network_value") true)
        as (l' & o' & c' & -> & Hc & Hall & _).
      do 3 eexists. split; [reflexivity | ]. simpl in Hc. subst c'.
      split; [rewrite orb_true_r; reflexivity | ]. split; [ | discriminate].
      constructor; [apply address_differs_updated | exact Hall].
    + destruct (IH o c) as (l' & o' & c' & -> & Hc & Hall & Hsame).
      do 3 eexists. split; [reflexivity | ]. split; [exact Hc | ].
      split; [constructor; assumption | ].
      simpl. intros H. destruct (Hsame H) as [-> ->]. auto.
Qed.

(** What [change_single_interface] does on an interface without VLANs
    when neither zone nor VLAN id is given. *)
Lemma change_single_interface_plain
    (zone_helper : PyVal → PyVal) (d : IData) (address network_value : PyVal)
    (lg : list Request) :
  has_vlan d = false →
  ∃ l' o',
    Forall (fun s => address_differs address s = false) l'
    ∧ (existsb (address_differs address) (interfaces d) = false →
       l' = interfaces d)
    ∧ change_single_interface zone_helper d address network_value VNone VNone lg
      = (if existsb (address_differs address) (interfaces d)
         then mkOutcome (Ok true) (set_interfaces l' d)
                (if truthy o' && negb (py_eq o' network_value)
                 then (lg ++ [ReqUpdate (set_interfaces l' d)])
                      ++ [ReqPurgeInvalidRoutes (interface_id d)]
                 else lg ++ [ReqUpdate (set_interfaces l' d)])
         else mkOutcome (Ok false) (set_interfaces l' d) lg).
Proof.
  intros Hd.
  destruct (change_single_loop_spec address network_value (interfaces d)
              VNone false) as (l' & o' & c' & Hl & Hc & Hall & Hsame).
  simpl in Hc. subst c'. exists l', o'.
  split; [exact Hall | ]. split; [intros H; exact (proj1 (Hsame H)) | ].
  unfold change_single_interface. rewrite Hd. simpl. rewrite Hl.
  destruct (existsb (address_differs address) (interfaces d)); reflexivity.
Qed.

(** X11.  [change_single_interface(address, network_value)] on an
    interface without VLANs, no zone given: it returns [True] exactly
    when the address of some sub-interface differs (the network value
    alone never triggers a change); then it sends one update, followed
    at most by the purge of invalid routes, and otherwise it leaves body
    and log as they were.  Afterwards no address differs, and applying
    the same call again returns [False] and sends nothing. *)
Theorem change_single_interface_idempotent
    (zone_helper : PyVal → PyVal) (self : IData) (address network_value : PyVal)
    (log : list Request) :
  has_vlan self = false →
  let o1 := change_single_interface zone_helper self address network_value
              VNone VNone log in
  result o1 = Ok (existsb (address_differs address) (interfaces self))
  ∧ Forall (fun s => address_differs address s = false) (interfaces (self_data o1))
  ∧ (existsb (address_differs address) (interfaces self) = false →
     self_data o1 = self ∧ sent o1 = log)
  ∧ (existsb (address_differs address) (interfaces self) = true →
     sent o1 = log ++ [ReqUpdate (self_data o1)]
     ∨ sent o1 = log ++ [ReqUpdate (self_data o1);
                         ReqPurgeInvalidRoutes (interface_id self)])
  ∧ change_single_interface zone_helper (self_data o1) address network_value
      VNone VNone (sent o1)
    = mkOutcome (Ok false) (self_data o1) (sent o1).
Proof.
  intros Hvlan o1.
  destruct (change_single_interface_plain zone_helper self address network_value
              log Hvlan) as (l' & o' & Hall & Hsame & Hout).
  assert (Ho1 : o1 = _) by exact Hout. clear Hout.
  assert (Hvlan' : has_vlan (set_interfaces l' self) = false).
  { destruct self; exact Hvlan. }
  assert (Hnone : existsb (address_differs address) l' = false)
    by (apply existsb_all_false; exact Hall).
  assert (Hagain : ∀ lg,
            change_single_interface zone_helper (set_interfaces l' self)
              address network_value VNone VNone lg
            = mkOutcome (Ok false) (set_interfaces l' self) lg).
  { intros lg.
    destruct (change_single_interface_plain zone_helper (set_interfaces l' self)
                address network_value lg Hvlan')
      as (l2 & o2 & _ & Hsame2 & Hout2).
    rewrite Hout2.
    change (interfaces (set_interfaces l' self)) with l' in *.
    rewrite Hnone. rewrite (Hsame2 Hnone).
    destruct self; reflexivity. }
  rewrite Ho1.
  destruct (existsb (address_differs address) (interfaces self)) eqn:E.
  - cbn [result self_data sent].
    split; [reflexivity | ]. split; [exact Hall | ]. split; [discriminate | ].
    split; [ | apply Hagain].
    intros _. destruct (truthy o' && negb (py_eq o' network_value));
      [right; rewrite <- app_assoc | left]; reflexivity.
  - cbn [result self_data sent].
    split; [reflexivity | ]. split; [exact Hall | ].
    split; [intros _; rewrite (Hsame eq_refl), set_interfaces_same; auto | ].
    split; [discriminate | apply Hagain].
Qed.

Lemma change_single_interface_idempotent_witness :
  has_vlan itf2_mgmt = false
  ∧ result (change_single_interface (fun zone => zone) itf2_mgmt (VStr "10.0.9.1")
              (VStr "10.0.9.0/24") VNone VNone []) = Ok true.
Proof.
  split; [reflexivity | ].
  exact (proj1 (change_single_interface_idempotent (fun zone => zone) itf2_mgmt
                  (VStr "10.0.9.1") (VStr "10.0.9.0/24") [] eq_refl)).
Defined.

(** ** An address change inside a VLAN *)

Lemma get_vlan_ok_lookup (d : IData) (vid : PyVal) (j : nat) (vlan : IData) :
  get_vlan d vid = Ok (j, vlan) →
  vlans_of d !! j = Some vlan ∧ vlan_id vlan = Some (py_str vid).
Proof.
  unfold get_vlan.
  destruct (find_vlan (vlans_of d) (py_str vid) 0) as [[j0 v0] | ] eqn:E;
    [ | discriminate].
  intros [= -> ->]. apply find_vlan_some in E as (k & -> & Hk & Hv). auto.
Qed.

(** X12.  [change_single_interface] with a [vlan_id]: when no VLAN has
    that id it raises [InterfaceNotFound] with body and log as before;
    when VLAN [j] has it (no zone given), only the fragments of that
    VLAN are written: the interface's id and own fragments and all other
    VLANs stay, the VLAN keeps its id, none of its addresses differs
    afterwards, and the call returns [True] exactly when one differed. *)
Theorem change_single_interface_on_vlan
    (zone_helper : PyVal → PyVal) (self : IData)
    (address network_value zref vid : PyVal) (log : list Request) :
  truthy vid = true →
  (get_vlan self vid = Raise InterfaceNotFound →
   change_single_interface zone_helper self address network_value zref vid log
   = mkOutcome (Raise InterfaceNotFound) self log)
  ∧ (∀ j vlan,
       get_vlan self vid = Ok (j, vlan) →
       truthy zref = false →
       let o := change_single_interface zone_helper self address network_value
                  zref vid log in
       result o = Ok (existsb (address_differs address) (interfaces vlan))
       ∧ interface_id (self_data o) = interface_id self
       ∧ interfaces (self_data o) = interfaces self
       ∧ (∀ j', j' ≠ j → vlans_of (self_data o) !! j' = vlans_of self !! j')
       ∧ ∃ vlan', vlans_of (self_data o) !! j = Some vlan'
                  ∧ interface_id vlan' = interface_id vlan
                  ∧ Forall (fun s => address_differs address s = false)
                      (interfaces vlan')).
Proof.
  intros Hvid. split.
  - intros Hget. unfold change_single_interface, resolve_target.
    rewrite Hvid, andb_false_r, Hget. reflexivity.
  - intros j vlan Hget Hz o.
    destruct (get_vlan_ok_lookup _ _ _ _ Hget) as [Hj _].
    destruct (change_single_loop_spec address network_value (interfaces vlan)
                VNone false) as (l' & o' & c' & Hl & Hc & Hall & _).
    simpl in Hc. subst c'.
    assert (Ho : self_data o
                 = set_vlanInterfaces
                     (option_map (alter (set_interfaces l') j)
                        (vlanInterfaces self)) self
                 ∧ result o
                   = Ok (existsb (address_differs address) (interfaces vlan))).
    { subst o. unfold change_single_interface, resolve_target, stage_zone.
      rewrite Hvid, andb_false_r, Hget, Hz. simpl. rewrite Hl.
      destruct (existsb (address_differs address) (interfaces vlan));
        split; reflexivity. }
    destruct Ho as [Hd Hr]. rewrite Hd. split; [exact Hr | ].
    split; [reflexivity | ]. split; [reflexivity | ].
    unfold vlans_of in *. simpl.
    destruct (vlanInterfaces self) as [vl | ]; simpl in *; [ | discriminate].
    split.
    + intros j' Hne. apply list_lookup_alter_ne. congruence.
    + exists (set_interfaces l' vlan). split.
      * rewrite list_lookup_alter_eq, Hj. reflexivity.
      * split; [destruct vlan; reflexivity | exact Hall].
Qed.

Lemma change_single_interface_on_vlan_witness :
  get_vlan itf12 (VInt 14)
  = Ok (0, vlan_fragment "12.14" [sni "12.14" "14.14.14.1" "14.14.14.0/24" false])
  ∧ result (change_single_interface (fun zone => zone) itf12 (VStr "14.14.14.9")
              (VStr "14.14.14.0/24") VNone (VInt 14) []) = Ok true
  ∧ interfaces (self_data (change_single_interface (fun zone => zone) itf12
                             (VStr "14.14.14.9") (VStr "14.14.14.0/24") VNone
                             (VInt 14) [])) = [].
Proof.
  split; [reflexivity | ].
  destruct (proj2 (change_single_interface_on_vlan (fun zone => zone) itf12
                     (VStr "14.14.14.9") (VStr "14.14.14.0/24") VNone (VInt 14) []
                     eq_refl) 0 _ eq_refl eq_refl)
    as (Hres & _ & Hitf & _).
  split; [exact Hres | exact Hitf].
Defined.

(** ** A cluster change with nothing to change *)

(** X13.  [change_cluster_interface] on an interface without VLANs does
    nothing when neither [cluster_virtual] nor [nodes] is given and the
    MAC address and the comment are omitted or equal to the current
    ones: a new [network_value] alone is ignored.  It returns [False],
    the body and the log are as before. *)
Theorem change_cluster_interface_network_only
    (zone_helper : PyVal → PyVal) (self : IData)
    (cluster_virtual network_value mac vid cmt : PyVal) (log : list Request) :
  has_vlan self = false →
  truthy vid = false →
  truthy cluster_virtual = false →
  truthy mac = false ∨ py_eq (macaddress self) mac = true →
  cmt = VNone ∨ py_eq cmt (comment self) = true →
  change_cluster_interface zone_helper self cluster_virtual network_value []
    mac vid VNone cmt log
  = mkOutcome (Ok false) self log.
Proof.
  intros Hvlan Hvid Hcv Hmac Hcmt.
  unfold change_cluster_interface, resolve_target, stage_zone.
  rewrite Hvlan, Hvid. simpl.
  assert (E1 : truthy mac && negb (py_eq (macaddress self) mac) = false).
  { destruct Hmac as [-> | ->]; [reflexivity | apply andb_false_r]. }
  rewrite E1. simpl.
  assert (E2 : negb (bool_decide (cmt = VNone)) && negb (py_eq cmt (comment self))
               = false).
  { destruct Hcmt as [-> | ->]; [reflexivity | apply andb_false_r]. }
  rewrite E2. simpl. rewrite Hcv, andb_false_r. simpl.
  rewrite set_interfaces_same. reflexivity.
Qed.

Lemma change_cluster_interface_network_only_witness :
  change_cluster_interface (fun zone => zone) itf1_ndi_only VNone
    (VStr "6.6.6.0/24") [] VNone VNone VNone VNone []
  = mkOutcome (Ok false) itf1_ndi_only [].
Proof.
  apply change_cluster_interface_network_only; try reflexivity;
    left; reflexivity.
Defined.

(** ** Splitting composite ids *)

Lemma split_not_nil (c : ascii) (s : string) : split c s ≠ [].
Proof.
  destruct s as [ | a s]; simpl; [discriminate | ].
  destruct (Ascii.eqb a c); [discriminate | ].
  destruct (split c s); discriminate.
Qed.

Lemma contains_cons (c c' : ascii) (r : string) :
  contains (String c "") (String c' r)
  = Ascii.eqb c' c || contains (String c "") r.
Proof.
  simpl. destruct (ascii_dec c c') as [-> | Hne].
  - rewrite Ascii.eqb_refl. destruct r; reflexivity.
  - assert (E : Ascii.eqb c' c = false) by (apply Ascii.eqb_neq; congruence).
    rewrite E. reflexivity.
Qed.

(** A text without the separator is its own single part. *)
Lemma split_no_sep (c : ascii) (s : string) :
  contains (String c "") s = false → split c s = [s].
Proof.
  induction s as [ | a s IH]; [reflexivity | ].
  rewrite contains_cons. intros H. apply orb_false_iff in H as [E H].
  simpl. rewrite E, (IH H). reflexivity.
Qed.

Lemma last_cons_more {A : Type} (x y : A) (l : list A) (d : A) :
  List.last (x :: y :: l) d = List.last (y :: l) d.
Proof. reflexivity. Qed.

(** The last part of a split holds no separator. *)
Lemma last_part_no_sep (c : ascii) (s : string) :
  contains (String c "") (last_part (split c s)) = false.
Proof.
  unfold last_part. induction s as [ | a s IH]; [reflexivity | ].
  simpl. destruct (Ascii.eqb a c) eqn:E.
  - destruct (split c s) as [ | w ws] eqn:Es; [exact (False_ind _ (split_not_nil c s Es)) | ].
    rewrite last_cons_more. exact IH.
  - destruct (split c s) as [ | w ws] eqn:Es; [exact (False_ind _ (split_not_nil c s Es)) | ].
    destruct ws as [ | w' ws].
    + change (List.last [String a w] "") with (String a w).
      change (List.last [w] "") with w in IH.
      rewrite contains_cons, E. exact IH.
    + rewrite last_cons_more. rewrite last_cons_more in IH. exact IH.
Qed.

Lemma split_app_two (c : ascii) (a b : string) :
  ∃ w w' ws, split c (a +:+ String c b) = w :: w' :: ws.
Proof.
  induction a as [ | x a IH]; simpl.
  - rewrite Ascii.eqb_refl.
    destruct (split c b) as [ | w ws] eqn:Es; [exact (False_ind _ (split_not_nil c b Es)) | ].
    eauto.
  - destruct IH as (w & w' & ws & ->).
    destruct (Ascii.eqb x c); eauto.
Qed.

(** The last part of [a ++ sep ++ b] is the last part of [b]. *)
Lemma last_part_split_app (c : ascii) (a b : string) :
  last_part (split c (a +:+ String c b)) = last_part (split c b).
Proof.
  unfold last_part. induction a as [ | x a IH]; simpl.
  - rewrite Ascii.eqb_refl.
    destruct (split c b) as [ | w ws] eqn:Es; [exact (False_ind _ (split_not_nil c b Es)) | ].
    reflexivity.
  - destruct (split_app_two c a b) as (w & w' & ws & Es).
    rewrite Es in *. destruct (Ascii.eqb x c); exact IH.
Qed.

(** The first part of [a ++ sep ++ b] is [a] when [a] holds no
    separator. *)
Lemma first_part_split_app (c : ascii) (a b : string) :
  contains (String c "") a = false →
  first_part (split c (a +:+ String c b)) = a.
Proof.
  unfold first_part. induction a as [ | x a IH]; simpl.
  - intros _. rewrite Ascii.eqb_refl. reflexivity.
  - intros H. change (contains (String c "") (String x a) = false) in H.
    rewrite contains_cons in H. apply orb_false_iff in H as [E H].
    rewrite E. specialize (IH H).
    destruct (split c (a +:+ String c b)) as [ | w ws] eqn:Es;
      [exact (False_ind _ (split_not_nil c _ Es)) | ].
    simpl in *. rewrite IH. reflexivity.
Qed.

(** Composite id and VLAN id: the VLAN id of the fragment [parent.v]
    without sub-interfaces is the last part of [v]. *)
Lemma vlan_id_composite (parent v : string) (d : IData) :
  interfaces d = [] →
  interface_id d = VStr (parent +:+ "." +:+ v) →
  vlan_id d = Some (last_part (split "." v)).
Proof.
  intros Hi Hid. unfold vlan_id. rewrite Hid, Hi.
  change (parent +:+ "." +:+ v) with (parent +:+ String "." v).
  rewrite last_part_split_app. reflexivity.
Qed.

Lemma vlan_id_empty (d : IData) (vid : string) :
  interfaces d = [] → interface_id d = VStr vid →
  vlan_id d = Some (last_part (split "." vid)).
Proof. intros Hi Hid. unfold vlan_id. rewrite Hid, Hi. reflexivity. Qed.

Lemma find_vlan_found (vl : list IData) (t : string) (j0 k : nat) (v : IData) :
  vl !! k = Some v → vlan_id v = Some t →
  ∃ p, find_vlan vl t j0 = Some p.
Proof.
  intros Hk Hv. destruct (find_vlan vl t j0) as [p | ] eqn:E; [eauto | ].
  apply find_vlan_none in E. rewrite Forall_forall in E.
  exfalso. apply (E v); [ | exact Hv].
  apply list_elem_of_lookup. eauto.
Qed.

Lemma find_vlan_by_ids (vl vl' : list IData) (t : string) (j : nat) :
  map vlan_id vl' = map vlan_id vl →
  (find_vlan vl' t j = None ↔ find_vlan vl t j = None).
Proof.
  intros H. rewrite !find_vlan_none.
  revert vl' H. induction vl as [ | v vl IH]; intros [ | v' vl'] H;
    try discriminate; [reflexivity | ].
  simpl in H. injection H as Hv Hl.
  rewrite !Forall_cons, Hv, (IH vl' Hl). reflexivity.
Qed.

(** ** Relabelling an interface with address-less VLANs *)

Lemma for_each_ok {A : Type} (f : A → Result unit * A) (g : A → A) (l : list A) :
  Forall (fun x => f x = (Ok tt, g x)) l → for_each f l = (Ok tt, map g l).
Proof.
  induction 1 as [ | x l Hx _ IH]; [reflexivity | ].
  simpl. rewrite Hx, IH. reflexivity.
Qed.

(** X14.  [change_interface_id(new)] on an interface whose VLAN
    fragments hold no sub-interfaces (VLANs of a master engine, say) and
    whose own sub-interfaces are not inline succeeds for every [new]:
    the interface id becomes the part of [str(new)] before the first
    ['-'], every own sub-interface gets it as nic id, every VLAN
    fragment is relabelled [<new id>.<its VLAN id>] and keeps its VLAN
    id, so that [get_vlan(v)] fails afterwards exactly when it failed
    before; one update request carries the body. *)
Theorem change_interface_id_keeps_vlan_ids
    (inline_change_interface_id : PyVal → SubInterface → Result SubInterface)
    (self : IData) (iid : PyVal) (log : list Request) :
  Forall (fun v => interfaces v = [] ∧ ∃ vid, interface_id v = VStr vid)
         (vlans_of self) →
  Forall (fun s => isinstance_inline s = false) (interfaces self) →
  let if1 := first_part (split "-" (py_str iid)) in
  let o := change_interface_id inline_change_interface_id self iid log in
  result o = Ok tt
  ∧ interface_id (self_data o) = VStr if1
  ∧ interfaces (self_data o) = map (sub_setitem "nicid" (VStr if1)) (interfaces self)
  ∧ map vlan_id (vlans_of (self_data o)) = map vlan_id (vlans_of self)
  ∧ Forall (fun v => ∃ x, vlan_id v = Some x
                          ∧ interface_id v = VStr (if1 +:+ "." +:+ x))
      (vlans_of (self_data o))
  ∧ (∀ v, get_vlan (self_data o) v = Raise InterfaceNotFound
          ↔ get_vlan self v = Raise InterfaceNotFound)
  ∧ sent o = log ++ [ReqUpdate (self_data o)].
Proof.
  intros Hvl Hown if1 o.
  set (g := fun v : IData =>
              match interface_id v with
              | VStr vid =>
                  set_interface_id
                    (VStr (if1 +:+ "." +:+ last_part (split "." vid))) v
              | _ => v
              end).
  assert (Hrel : for_each (relabel_vlan inline_change_interface_id iid if1)
                   (vlans_of self) = (Ok tt, map g (vlans_of self))).
  { apply for_each_ok. eapply Forall_impl; [exact Hvl | ].
    intros v [Hi (vid & Hid)]. simpl. unfold relabel_vlan, g. rewrite Hid.
    unfold has_interfaces. simpl. rewrite Hi. reflexivity. }
  assert (Hsubs : ∀ d, interfaces d = interfaces self →
            for_each (relabel_sub inline_change_interface_id iid if1) (interfaces d)
            = (Ok tt, map (sub_setitem "nicid" (VStr if1)) (interfaces self))).
  { intros d ->. apply for_each_lift_ok. eapply Forall_impl; [exact Hown | ].
    intros s Hinl. simpl. rewrite Hinl. reflexivity. }
  assert (Hout : o = mkOutcome (Ok tt)
            (set_interface_id (VStr if1)
               (set_interfaces (map (sub_setitem "nicid" (VStr if1)) (interfaces self))
                  (set_vlanInterfaces
                     (option_map (fun _ => map g (vlans_of self))
                        (vlanInterfaces self)) self)))
            (log ++ [ReqUpdate
               (set_interface_id (VStr if1)
                  (set_interfaces (map (sub_setitem "nicid" (VStr if1)) (interfaces self))
                     (set_vlanInterfaces
                        (option_map (fun _ => map g (vlans_of self))
                           (vlanInterfaces self)) self)))])).
  { subst o. unfold change_interface_id. fold if1. rewrite Hrel.
    erewrite Hsubs; reflexivity. }
  assert (Hvlans : vlans_of (self_data o) = map g (vlans_of self)).
  { rewrite Hout. unfold vlans_of. simpl.
    destruct (vlanInterfaces self); reflexivity. }
  assert (Hg : Forall (fun v => vlan_id (g v) = vlan_id v
                                ∧ ∃ x, vlan_id (g v) = Some x
                                       ∧ interface_id (g v)
                                         = VStr (if1 +:+ "." +:+ x))
                 (vlans_of self)).
  { eapply Forall_impl; [exact Hvl | ]. intros v [Hi (vid & Hid)]. simpl.
    assert (Hnew : vlan_id (g v) = Some (last_part (split "." vid))).
    { rewrite (vlan_id_composite if1 (last_part (split "." vid)) (g v)).
      - rewrite (split_no_sep "." _ (last_part_no_sep "." vid)). reflexivity.
      - unfold g. rewrite Hid. exact Hi.
      - unfold g. rewrite Hid. reflexivity. }
    split.
    - rewrite Hnew. symmetry. apply vlan_id_empty; assumption.
    - exists (last_part (split "." vid)). split; [exact Hnew | ].
      unfold g. rewrite Hid. reflexivity. }
  assert (Hids : map vlan_id (vlans_of (self_data o)) = map vlan_id (vlans_of self)).
  { rewrite Hvlans, map_map. clear -Hg.
    induction Hg as [ | v l [Hv _] _ IH]; [reflexivity | ].
    simpl. rewrite Hv, IH. reflexivity. }
  split; [rewrite Hout; reflexivity | ].
  split; [rewrite Hout; reflexivity | ].
  split; [rewrite Hout; reflexivity | ].
  split; [exact Hids | ]. split; [ | split].
  - rewrite Hvlans. clear -Hg.
    induction Hg as [ | v l [_ Hv] _ IH]; simpl; constructor; assumption.
  - intros v. unfold get_vlan.
    pose proof (find_vlan_by_ids (vlans_of self) (vlans_of (self_data o))
                  (py_str v) 0 Hids) as Hiff.
    destruct (find_vlan (vlans_of (self_data o)) (py_str v) 0) as [p | ];
      destruct (find_vlan (vlans_of self) (py_str v) 0) as [q | ];
      split; intros H; try reflexivity; try discriminate;
      destruct Hiff as [H1 H2];
      [specialize (H2 eq_refl) | specialize (H1 eq_refl)]; discriminate.
  - rewrite Hout. reflexivity.
Qed.

Lemma change_interface_id_keeps_vlan_ids_witness :
  result (change_interface_id (fun _ s => Ok s)
            (physical "7" [sni "7" "7.7.7.1" "7.7.7.0/24" false]
               [vlan_fragment "7.30" []; vlan_fragment "7.31" []])
            (VStr "8-9") []) = Ok tt
  ∧ map vlan_id
      (vlans_of (self_data (change_interface_id (fun _ s => Ok s)
                   (physical "7" [sni "7" "7.7.7.1" "7.7.7.0/24" false]
                      [vlan_fragment "7.30" []; vlan_fragment "7.31" []])
                   (VStr "8-9") [])))
    = [Some "30"; Some "31"].
Proof.
  destruct (change_interface_id_keeps_vlan_ids (fun _ s => Ok s)
              (physical "7" [sni "7" "7.7.7.1" "7.7.7.0/24" false]
                 [vlan_fragment "7.30" []; vlan_fragment "7.31" []])
              (VStr "8-9") [])
    as (Hres & _ & _ & Hids & _).
  - repeat constructor; eexists; reflexivity.
  - repeat constructor.
  - split; [exact Hres | exact Hids].
Defined.

(** ** Changing a VLAN id *)

(** X15.  [change_vlan_id(original, new)]: when no VLAN has the id
    [original] it raises [InterfaceNotFound] with body and log as
    before.  On a VLAN fragment without sub-interfaces it succeeds: the
    fragment is relabelled [<parent>.<new>], where [<parent>] is the
    part of its id before the first dot and [<new>] the part of
    [str(new)] before the first ['-']; everything else of the body stays
    and one update request carries it.  When [str(new)] holds neither
    ['-'] nor ['.'], the fragment's VLAN id is [str(new)] afterwards and
    [get_vlan(new)] succeeds. *)
Theorem change_vlan_id_relabels
    (sub_change_vlan_id : string → SubInterface → Result SubInterface)
    (inline_change_vlan_id : PyVal → SubInterface → Result SubInterface)
    (self : IData) (original new : PyVal) (log : list Request) :
  (get_vlan self original = Raise InterfaceNotFound →
   change_vlan_id sub_change_vlan_id inline_change_vlan_id self original new log
   = mkOutcome (Raise InterfaceNotFound) self log)
  ∧ (∀ j vlan vid,
       get_vlan self original = Ok (j, vlan) →
       interface_id vlan = VStr vid →
       interfaces vlan = [] →
       let o := change_vlan_id sub_change_vlan_id inline_change_vlan_id self
                  original new log in
       let vlan' :=
         set_interface_id
           (VStr (first_part (split "." vid) +:+ "."
                  +:+ first_part (split "-" (py_str new)))) vlan in
       result o = Ok tt
       ∧ sent o = log ++ [ReqUpdate (self_data o)]
       ∧ interface_id (self_data o) = interface_id self
       ∧ interfaces (self_data o) = interfaces self
       ∧ vlans_of (self_data o) !! j = Some vlan'
       ∧ (∀ j', j' ≠ j → vlans_of (self_data o) !! j' = vlans_of self !! j')
       ∧ (contains "-" (py_str new) = false →
          contains "." (py_str new) = false →
          vlan_id vlan' = Some (py_str new)
          ∧ ∃ p, get_vlan (self_data o) new = Ok p)).
Proof.
  split.
  - intros H. unfold change_vlan_id. rewrite H. reflexivity.
  - intros j vlan vid Hget Hid Hi o vlan'.
    destruct (get_vlan_ok_lookup _ _ _ _ Hget) as [Hj _].
    assert (Hout : o = mkOutcome (Ok tt)
              (set_vlanInterfaces
                 (option_map (alter (fun _ => vlan') j) (vlanInterfaces self)) self)
              (log ++ [ReqUpdate
                 (set_vlanInterfaces
                    (option_map (alter (fun _ => vlan') j) (vlanInterfaces self))
                    self)])).
    { subst o vlan'. unfold change_vlan_id. rewrite Hget, Hid.
      change (interfaces (set_interface_id ?x vlan)) with (interfaces vlan).
      rewrite Hi. cbn [for_each].
      replace (set_interfaces [] (set_interface_id
                 (VStr (first_part (split "." vid) +:+ "."
                        +:+ first_part (split "-" (py_str new)))) vlan))
        with (set_interface_id
                (VStr (first_part (split "." vid) +:+ "."
                       +:+ first_part (split "-" (py_str new)))) vlan)
        by (destruct vlan; simpl in *; subst; reflexivity).
      reflexivity. }
    assert (Hvl : vlans_of (self_data o) = alter (fun _ => vlan') j (vlans_of self)).
    { rewrite Hout. unfold vlans_of in *. simpl.
      destruct (vlanInterfaces self); [reflexivity | discriminate]. }
    assert (Hj' : vlans_of (self_data o) !! j = Some vlan').
    { rewrite Hvl, list_lookup_alter_eq, Hj. reflexivity. }
    split; [rewrite Hout; reflexivity | ].
    split; [rewrite Hout; reflexivity | ].
    split; [rewrite Hout; reflexivity | ].
    split; [rewrite Hout; reflexivity | ].
    split; [exact Hj' | ]. split.
    + intros j' Hne. rewrite Hvl. apply list_lookup_alter_ne. congruence.
    + intros Hdash Hdot.
      assert (Hnew : first_part (split "-" (py_str new)) = py_str new).
      { rewrite (split_no_sep "-" _ Hdash). reflexivity. }
      assert (Hv : vlan_id vlan' = Some (py_str new)).
      { rewrite (vlan_id_composite (first_part (split "." vid)) (py_str new) vlan').
        - rewrite (split_no_sep "." _ Hdot). reflexivity.
        - exact Hi.
        - subst vlan'. simpl. rewrite Hnew. reflexivity. }
      split; [exact Hv | ].
      unfold get_vlan.
      destruct (find_vlan_found _ _ 0 _ _ Hj' Hv) as [p ->]. eauto.
Qed.

Lemma change_vlan_id_relabels_witness :
  get_vlan (physical "7" [] [vlan_fragment "7.30" []; vlan_fragment "7.31" []])
    (VInt 31) = Ok (1, vlan_fragment "7.31" [])
  ∧ ∃ p, get_vlan
           (self_data
              (change_vlan_id (fun _ s => Ok s) (fun _ s => Ok s)
                 (physical "7" [] [vlan_fragment "7.30" []; vlan_fragment "7.31" []])
                 (VInt 31) (VInt 100) []))
           (VInt 100) = Ok p.
Proof.
  split; [reflexivity | ].
  destruct (proj2 (change_vlan_id_relabels (fun _ s => Ok s) (fun _ s => Ok s)
                     (physical "7" [] [vlan_fragment "7.30" []; vlan_fragment "7.31" []])
                     (VInt 31) (VInt 100) [])
              1 (vlan_fragment "7.31" []) "7.31" eq_refl eq_refl eq_refl)
    as (_ & _ & _ & _ & _ & _ & Hfind).
  exact (proj2 (Hfind eq_refl eq_refl)).
Defined.

(** ** A VLAN added to the draft can be looked up *)

Lemma vlan_id_not_inline (d : IData) (vid : string) :
  (∀ s rest, interfaces d = s :: rest → typeof s ≠ Inline) →
  interface_id d = VStr vid →
  vlan_id d = Some (last_part (split "." vid)).
Proof.
  intros Hs Hid. unfold vlan_id. rewrite Hid.
  destruct (interfaces d) as [ | s rest] eqn:E; [reflexivity | ].
  rewrite bool_decide_eq_false_2 by exact (Hs s rest eq_refl). reflexivity.
Qed.

(** X16.  What the builder adds, [get_vlan] finds.  For a VLAN id [v]
    whose text holds no dot, on a draft with a VLAN list: after
    [add_vlan_only] and after [add_cvi_to_vlan] for [v], the draft's
    last VLAN fragment has the VLAN id [str(v)] and [get_vlan(v)] on the
    draft succeeds. *)
Theorem builder_added_vlan_is_found
    (zone_helper : PyVal → PyVal) (b : IData) (vl : list IData)
    (address network_value vid vmap vres zref cmt : PyVal)
    (kw : list (string * PyVal)) :
  vlanInterfaces b = Some vl →
  contains "." (py_str vid) = false →
  (∃ b' vlan,
     add_vlan_only zone_helper b vid vmap vres zref cmt = Ok b'
     ∧ vlans_of b' = vl ++ [vlan]
     ∧ vlan_id vlan = Some (py_str vid)
     ∧ ∃ p, get_vlan b' vid = Ok p)
  ∧ (∃ b' vlan,
       add_cvi_to_vlan zone_helper b address network_value vid zref cmt kw = Ok b'
       ∧ vlans_of b' = vl ++ [vlan]
       ∧ vlan_id vlan = Some (py_str vid)
       ∧ ∃ p, get_vlan b' vid = Ok p).
Proof.
  intros Hvl Hdot.
  assert (Hfound : ∀ vlan,
            (∀ s rest, interfaces vlan = s :: rest → typeof s ≠ Inline) →
            interface_id vlan = VStr (dotted (interface_id b) vid) →
            ∃ b', append_vlan vlan b = Ok b'
                  ∧ vlans_of b' = vl ++ [vlan]
                  ∧ vlan_id vlan = Some (py_str vid)
                  ∧ ∃ p, get_vlan b' vid = Ok p).
  { intros vlan Hs Hid.
    assert (Hv : vlan_id vlan = Some (py_str vid)).
    { rewrite (vlan_id_not_inline vlan _ Hs Hid). unfold dotted.
      change (py_str (interface_id b) +:+ "." +:+ py_str vid)
        with (py_str (interface_id b) +:+ String "." (py_str vid)).
      rewrite last_part_split_app, (split_no_sep "." _ Hdot). reflexivity. }
    unfold append_vlan. rewrite Hvl. eexists. split; [reflexivity | ].
    split; [reflexivity | ]. split; [exact Hv | ].
    unfold get_vlan, vlans_of. simpl.
    destruct (find_vlan_found (vl ++ [vlan]) (py_str vid) 0 (List.length vl) vlan)
      as [p ->]; [ | exact Hv | eauto].
    rewrite lookup_app_r by reflexivity.
    replace (List.length vl - List.length vl) with 0 by lia. reflexivity. }
  split.
  - unfold add_vlan_only.
    destruct (Hfound (PhysicalVlanInterface_create zone_helper (interface_id b)
                        vid vmap vres zref cmt None)) as (b' & H);
      [intros s rest H; discriminate | reflexivity | eauto].
  - unfold add_cvi_to_vlan.
    destruct (Hfound (PhysicalVlanInterface_create zone_helper (interface_id b)
                        vid VNone VNone zref cmt
                        (Some (create_cvi (interface_id b) address network_value
                                 (("nicid", VStr (dotted (interface_id b) vid))
                                    :: kw))))) as (b' & H);
      [ | reflexivity | eauto].
    intros s rest [= <- _]. rewrite create_cvi_typeof. discriminate.
Qed.

Lemma builder_added_vlan_is_found_witness :
  ∃ b' vlan,
    add_vlan_only (fun zone => zone) itf12 (VInt 15) VNone VNone VNone VNone = Ok b'
    ∧ vlans_of b' = vlans_of itf12 ++ [vlan]
    ∧ vlan_id vlan = Some "15"
    ∧ ∃ p, get_vlan b' (VInt 15) = Ok p.
Proof.
  exact (proj1 (builder_added_vlan_is_found (fun zone => zone) itf12 _
                  VNone VNone (VInt 15) VNone VNone VNone VNone [] eq_refl eq_refl)).
Defined.
